(** * Flair agent platform: the customer support page and the turn contract

    A shallow embedding of [web/static/customer_support.js] (the revision
    that carries the promise ledger and [userFacingErrorMessage], with the
    older error paths of the earlier revision kept in [Module Legacy]) and,
    in [Module Core], of the per-session turn contract of the orchestrator.

    JavaScript values are an inductive type with the language's own
    truthiness and [String] conversion; the [state] object and the part of
    the page the functions paint are records threaded through every
    function; every [async] function is cut at its [await]s into a start
    segment and one resumption per suspension point, and an event loop
    world runs the segments in any order the browser could. *)

From Stdlib Require Import ZArith List Bool Ascii String Lia.
From stdpp Require Import base option list strings gmap pretty.
Import ListNotations.

Set Warnings "-register-all".

Local Open Scope Z_scope.
Local Open Scope string_scope.

(** ** Strings *)

Definition dquote : ascii := "034"%char.
Definition backslash : ascii := "092"%char.

Definition is_js_space (c : ascii) : bool :=
  let n := nat_of_ascii c in
  ((9 <=? n) && (n <=? 13))%nat || (n =? 32)%nat.

Fixpoint trimStart (s : string) : string :=
  match s with
  | String c s' => if is_js_space c then trimStart s' else s
  | EmptyString => EmptyString
  end.

Fixpoint str_rev_onto (s acc : string) : string :=
  match s with
  | String c s' => str_rev_onto s' (String c acc)
  | EmptyString => acc
  end.

Definition str_rev (s : string) : string := str_rev_onto s EmptyString.

(** [String.prototype.trim] on the white space of the ASCII range. *)
Definition trim (s : string) : string :=
  str_rev (trimStart (str_rev (trimStart s))).

(** [String.prototype.toLowerCase] on the letters of the ASCII range. *)
Definition lower_char (c : ascii) : ascii :=
  let n := nat_of_ascii c in
  if ((65 <=? n) && (n <=? 90))%nat then ascii_of_nat (n + 32) else c.

Fixpoint toLowerCase (s : string) : string :=
  match s with
  | String c s' => String (lower_char c) (toLowerCase s')
  | EmptyString => EmptyString
  end.

(** [s.slice(from, to)] for [0 <= from <= to]. *)
Definition slice (from to : nat) (s : string) : string :=
  String.substring from (to - from) s.

Fixpoint includes (needle s : string) : bool :=
  String.prefix needle s ||
  match s with
  | String _ s' => includes needle s'
  | EmptyString => false
  end.

Definition is_digit (c : ascii) : bool :=
  let n := nat_of_ascii c in ((48 <=? n) && (n <=? 57))%nat.

Fixpoint has_digit (s : string) : bool :=
  match s with
  | String c s' => is_digit c || has_digit s'
  | EmptyString => false
  end.

Definition str_eqb (a b : string) : bool := bool_decide (a = b).

Definition join (sep : string) (parts : list string) : string :=
  match parts with
  | [] => ""
  | p :: ps => fold_left (fun acc q => acc +:+ sep +:+ q) ps p
  end.

(** ** JavaScript values

    What [JSON.parse] produces, plus [undefined].  Numbers are the
    integer-valued ones; objects keep their keys in insertion order, which
    is the order [JSON.stringify] prints them in. *)

Inductive value : Type :=
| VUndef
| VNull
| VBool (b : bool)
| VNum (n : Z)
| VStr (s : string)
| VArr (xs : list value)
| VObj (fields : list (string * value)).

Definition truthy (v : value) : bool :=
  match v with
  | VUndef | VNull => false
  | VBool b => b
  | VNum n => negb (Z.eqb n 0)
  | VStr s => negb (str_eqb s "")
  | VArr _ | VObj _ => true
  end.

(** [a || b] *)
Definition or_else (a b : value) : value := if truthy a then a else b.

(** [a ?? b] *)
Definition nullish_or (a b : value) : value :=
  match a with VUndef | VNull => b | _ => a end.

Fixpoint assoc (k : string) (fields : list (string * value)) : value :=
  match fields with
  | [] => VUndef
  | (k', v) :: rest => if str_eqb k k' then v else assoc k rest
  end.

(** [v.k] for a [v] that is neither [null] nor [undefined] (on those the
    access throws, which the callers below handle before reading). *)
Definition prop (v : value) (k : string) : value :=
  match v with
  | VObj fields => assoc k fields
  | _ => VUndef
  end.

Definition is_nullish (v : value) : bool :=
  match v with VUndef | VNull => true | _ => false end.

(** [v?.k] *)
Definition opt_prop (v : value) (k : string) : value :=
  if is_nullish v then VUndef else prop v k.

(** [v === s] for a string [s] *)
Definition strict_eq_str (v : value) (s : string) : bool :=
  match v with VStr t => str_eqb t s | _ => false end.

Definition isArray (v : value) : bool :=
  match v with VArr _ => true | _ => false end.

(** [typeof v === "object"] *)
Definition typeof_object (v : value) : bool :=
  match v with VNull | VArr _ | VObj _ => true | _ => false end.

Definition elements (v : value) : list value :=
  match v with VArr xs => xs | _ => [] end.

(** [String(v)] *)
Fixpoint String_ (v : value) : string :=
  match v with
  | VUndef => "undefined"
  | VNull => "null"
  | VBool true => "true"
  | VBool false => "false"
  | VNum n => pretty n
  | VStr s => s
  | VArr xs =>
      join "," (map (fun x => match x with
                              | VUndef | VNull => ""
                              | _ => String_ x
                              end) xs)
  | VObj _ => "[object Object]"
  end.

(** *** [JSON.stringify(v, null, 2)] *)

Definition hex_digit (n : nat) : ascii :=
  if (n <? 10)%nat then ascii_of_nat (48 + n) else ascii_of_nat (87 + n).

Definition escape_char (c : ascii) : string :=
  let n := nat_of_ascii c in
  if Ascii.eqb c dquote then String backslash (String dquote "")
  else if Ascii.eqb c backslash then String backslash (String backslash "")
  else if (n =? 8)%nat then String backslash "b"
  else if (n =? 9)%nat then String backslash "t"
  else if (n =? 10)%nat then String backslash "n"
  else if (n =? 12)%nat then String backslash "f"
  else if (n =? 13)%nat then String backslash "r"
  else if (n <? 32)%nat then
    String backslash ("u00" +:+ String (hex_digit (n / 16)) (String (hex_digit (n mod 16)) ""))
  else String c "".

Fixpoint escape (s : string) : string :=
  match s with
  | String c s' => escape_char c +:+ escape s'
  | EmptyString => ""
  end.

Definition quote (s : string) : string :=
  String dquote (escape s +:+ String dquote "").

Definition newline : string := String "010"%char "".

Fixpoint spaces (n : nat) : string :=
  match n with O => "" | S n' => String " " (spaces n') end.

Definition is_undef (v : value) : bool :=
  match v with VUndef => true | _ => false end.

(** [ind] is the indentation of the line the value starts on. *)
Fixpoint stringify_at (ind : nat) (v : value) : string :=
  let inner := (ind + 2)%nat in
  let sep := "," +:+ newline +:+ spaces inner in
  match v with
  | VUndef | VNull => "null"
  | VBool true => "true"
  | VBool false => "false"
  | VNum n => pretty n
  | VStr s => quote s
  | VArr xs =>
      match xs with
      | [] => "[]"
      | _ => "[" +:+ newline +:+ spaces inner
             +:+ join sep (map (stringify_at inner) xs)
             +:+ newline +:+ spaces ind +:+ "]"
      end
  | VObj fields =>
      let shown :=
        (fix members (fs : list (string * value)) : list string :=
           match fs with
           | [] => []
           | (k, x) :: rest =>
               if is_undef x then members rest
               else (quote k +:+ ": " +:+ stringify_at inner x) :: members rest
           end) fields in
      match shown with
      | [] => "{}"
      | _ => "{" +:+ newline +:+ spaces inner +:+ join sep shown
             +:+ newline +:+ spaces ind +:+ "}"
      end
  end.

Definition JSON_stringify (v : value) : string := stringify_at 0 v.

(** ** The page and the [state] object *)

(** A DOM element: tag, [className], its own text and its child elements. *)
Inductive node : Type :=
| El (tag cls text : string) (kids : list node).

Definition node_cls (n : node) : string := let 'El _ c _ _ := n in c.
Definition node_text (n : node) : string := let 'El _ _ t _ := n in t.
Definition node_kids (n : node) : list node := let 'El _ _ _ k := n in k.

(** Does [needle] occur in a class name or a text anywhere in the subtree? *)
Fixpoint mentions (needle : string) (n : node) : bool :=
  let 'El _ c t kids := n in
  includes needle (toLowerCase c) || includes needle (toLowerCase t)
  || existsb (mentions needle) kids.

(** The children of [#transcript].  A message keeps the payload its meta
    block (action chips and official links) is built from. *)
Inductive Entry : Type :=
| Msg (role text : string) (payload : value)
| SystemNote (text : string)
| TypingNote.

Definition is_typing (e : Entry) : bool :=
  match e with TypingNote => true | _ => false end.

Record Badge := MkBadge {
  badge_hidden : bool; badge_fast : bool; badge_warn : bool; badge_text : string }.

Inductive Mode := TextMode | VoiceMode.

Definition mode_str (m : Mode) : string :=
  match m with TextMode => "text" | VoiceMode => "voice" end.

Definition Mode_eqb (a b : Mode) : bool :=
  match a, b with TextMode, TextMode | VoiceMode, VoiceMode => true | _, _ => false end.

(** What the modelled functions only read: set when the page loads and by
    [loadCapabilities] / [applyBranding] / [applyUiStrings]. *)
Record Cfg := MkCfg {
  tenant : string;
  customerId : string;
  synthEnabled : bool;
  mediaRecorderSupported : bool;
  speechRecognitionSupported : bool;
  brand_name : value;
  brand_callCenterPhone : value;
  uiStrings : value;
  lastCapabilities : value;
  lastHealth : value }.

(** The fields of [state] the modelled functions assign. *)
Record Conv := MkConv {
  mode : Mode;
  sessionId : string;
  sending : bool;
  listening : bool;
  lastResponse : value;
  promiseLedger : value;
  customerEffort : value;
  voiceRetries : Z;
  pendingTranscript : value;
  voiceBackend_stt : value;
  voiceBackend_tts : value;
  lastAlerts : value }.

(** The elements of [els] the modelled functions paint.  A panel that is
    painted by a function outside this model is kept as the value it was
    last painted from. *)
Record Page := MkPage {
  transcript : list Entry;
  statusLine : string;
  inputValue : string;
  sendBtnDisabled : bool;
  voiceHint : string;
  promiseList : option (list node);
  effortBadge : option Badge;
  technicalPre : string;
  planPanel : value;
  resolutionPanel : value;
  alertsPanel : value }.

Record State := MkState { cfg : Cfg; conv : Conv; page : Page }.

Definition on_conv (f : Conv -> Conv) (st : State) : State :=
  MkState (cfg st) (f (conv st)) (page st).
Definition on_page (f : Page -> Page) (st : State) : State :=
  MkState (cfg st) (conv st) (f (page st)).

Definition set_mode (x : Mode) : State -> State :=
  on_conv (fun c => MkConv x (sessionId c) (sending c) (listening c) (lastResponse c)
      (promiseLedger c) (customerEffort c) (voiceRetries c) (pendingTranscript c)
      (voiceBackend_stt c) (voiceBackend_tts c) (lastAlerts c)).
Definition set_sessionId (x : string) : State -> State :=
  on_conv (fun c => MkConv (mode c) x (sending c) (listening c) (lastResponse c)
      (promiseLedger c) (customerEffort c) (voiceRetries c) (pendingTranscript c)
      (voiceBackend_stt c) (voiceBackend_tts c) (lastAlerts c)).
Definition set_sending (x : bool) : State -> State :=
  on_conv (fun c => MkConv (mode c) (sessionId c) x (listening c) (lastResponse c)
      (promiseLedger c) (customerEffort c) (voiceRetries c) (pendingTranscript c)
      (voiceBackend_stt c) (voiceBackend_tts c) (lastAlerts c)).
Definition set_listening (x : bool) : State -> State :=
  on_conv (fun c => MkConv (mode c) (sessionId c) (sending c) x (lastResponse c)
      (promiseLedger c) (customerEffort c) (voiceRetries c) (pendingTranscript c)
      (voiceBackend_stt c) (voiceBackend_tts c) (lastAlerts c)).
Definition set_lastResponse (x : value) : State -> State :=
  on_conv (fun c => MkConv (mode c) (sessionId c) (sending c) (listening c) x
      (promiseLedger c) (customerEffort c) (voiceRetries c) (pendingTranscript c)
      (voiceBackend_stt c) (voiceBackend_tts c) (lastAlerts c)).
Definition set_promiseLedger (x : value) : State -> State :=
  on_conv (fun c => MkConv (mode c) (sessionId c) (sending c) (listening c)
      (lastResponse c) x (customerEffort c) (voiceRetries c) (pendingTranscript c)
      (voiceBackend_stt c) (voiceBackend_tts c) (lastAlerts c)).
Definition set_customerEffort (x : value) : State -> State :=
  on_conv (fun c => MkConv (mode c) (sessionId c) (sending c) (listening c)
      (lastResponse c) (promiseLedger c) x (voiceRetries c) (pendingTranscript c)
      (voiceBackend_stt c) (voiceBackend_tts c) (lastAlerts c)).
Definition set_voiceRetries (x : Z) : State -> State :=
  on_conv (fun c => MkConv (mode c) (sessionId c) (sending c) (listening c)
      (lastResponse c) (promiseLedger c) (customerEffort c) x (pendingTranscript c)
      (voiceBackend_stt c) (voiceBackend_tts c) (lastAlerts c)).
Definition set_pendingTranscript (x : value) : State -> State :=
  on_conv (fun c => MkConv (mode c) (sessionId c) (sending c) (listening c)
      (lastResponse c) (promiseLedger c) (customerEffort c) (voiceRetries c) x
      (voiceBackend_stt c) (voiceBackend_tts c) (lastAlerts c)).
Definition set_stt (x : value) : State -> State :=
  on_conv (fun c => MkConv (mode c) (sessionId c) (sending c) (listening c)
      (lastResponse c) (promiseLedger c) (customerEffort c) (voiceRetries c)
      (pendingTranscript c) x (voiceBackend_tts c) (lastAlerts c)).
Definition set_tts (x : value) : State -> State :=
  on_conv (fun c => MkConv (mode c) (sessionId c) (sending c) (listening c)
      (lastResponse c) (promiseLedger c) (customerEffort c) (voiceRetries c)
      (pendingTranscript c) (voiceBackend_stt c) x (lastAlerts c)).
Definition set_lastAlerts (x : value) : State -> State :=
  on_conv (fun c => MkConv (mode c) (sessionId c) (sending c) (listening c)
      (lastResponse c) (promiseLedger c) (customerEffort c) (voiceRetries c)
      (pendingTranscript c) (voiceBackend_stt c) (voiceBackend_tts c) x).

Definition set_transcript (x : list Entry) : State -> State :=
  on_page (fun p => MkPage x (statusLine p) (inputValue p) (sendBtnDisabled p)
      (voiceHint p) (promiseList p) (effortBadge p) (technicalPre p) (planPanel p)
      (resolutionPanel p) (alertsPanel p)).
Definition set_statusLine (x : string) : State -> State :=
  on_page (fun p => MkPage (transcript p) x (inputValue p) (sendBtnDisabled p)
      (voiceHint p) (promiseList p) (effortBadge p) (technicalPre p) (planPanel p)
      (resolutionPanel p) (alertsPanel p)).
Definition set_inputValue (x : string) : State -> State :=
  on_page (fun p => MkPage (transcript p) (statusLine p) x (sendBtnDisabled p)
      (voiceHint p) (promiseList p) (effortBadge p) (technicalPre p) (planPanel p)
      (resolutionPanel p) (alertsPanel p)).
Definition set_sendBtnDisabled (x : bool) : State -> State :=
  on_page (fun p => MkPage (transcript p) (statusLine p) (inputValue p) x (voiceHint p)
      (promiseList p) (effortBadge p) (technicalPre p) (planPanel p) (resolutionPanel p)
      (alertsPanel p)).
Definition set_voiceHint (x : string) : State -> State :=
  on_page (fun p => MkPage (transcript p) (statusLine p) (inputValue p) (sendBtnDisabled p)
      x (promiseList p) (effortBadge p) (technicalPre p) (planPanel p) (resolutionPanel p)
      (alertsPanel p)).
Definition set_promiseList (x : option (list node)) : State -> State :=
  on_page (fun p => MkPage (transcript p) (statusLine p) (inputValue p) (sendBtnDisabled p)
      (voiceHint p) x (effortBadge p) (technicalPre p) (planPanel p) (resolutionPanel p)
      (alertsPanel p)).
Definition set_effortBadge (x : option Badge) : State -> State :=
  on_page (fun p => MkPage (transcript p) (statusLine p) (inputValue p) (sendBtnDisabled p)
      (voiceHint p) (promiseList p) x (technicalPre p) (planPanel p) (resolutionPanel p)
      (alertsPanel p)).
Definition set_technicalPre (x : string) : State -> State :=
  on_page (fun p => MkPage (transcript p) (statusLine p) (inputValue p) (sendBtnDisabled p)
      (voiceHint p) (promiseList p) (effortBadge p) x (planPanel p) (resolutionPanel p)
      (alertsPanel p)).
Definition set_planPanel (x : value) : State -> State :=
  on_page (fun p => MkPage (transcript p) (statusLine p) (inputValue p) (sendBtnDisabled p)
      (voiceHint p) (promiseList p) (effortBadge p) (technicalPre p) x (resolutionPanel p)
      (alertsPanel p)).
Definition set_resolutionPanel (x : value) : State -> State :=
  on_page (fun p => MkPage (transcript p) (statusLine p) (inputValue p) (sendBtnDisabled p)
      (voiceHint p) (promiseList p) (effortBadge p) (technicalPre p) (planPanel p) x
      (alertsPanel p)).
Definition set_alertsPanel (x : value) : State -> State :=
  on_page (fun p => MkPage (transcript p) (statusLine p) (inputValue p) (sendBtnDisabled p)
      (voiceHint p) (promiseList p) (effortBadge p) (technicalPre p) (planPanel p)
      (resolutionPanel p) x).

(** What the browser supplies to a segment of code when it runs: the clock
    ([new Date().getTime()]), the text [Math.random().toString(36)] would
    return, and [Date.parse]. *)
Record Host := MkHost {
  clock : Z;
  random36 : string;
  Date_parse : string -> option Z }.

(** ** Small helpers of the page script *)

(** [state.brand?.name || dflt], as spliced into a template literal. *)
Definition brand_or (dflt : string) (st : State) : string :=
  String_ (or_else (brand_name (cfg st)) (VStr dflt)).

Definition userFacingErrorMessage (context : string) (st : State) : string :=
  let brand := brand_or "support" st in
  let phone := brand_callCenterPhone (cfg st) in
  let urgentLine :=
    if truthy phone
    then " If this is urgent, you can call " +:+ brand +:+ " at " +:+ String_ phone
         +:+ " (wait times may vary)."
    else "" in
  if str_eqb context "send" then
    "I couldn't process that request right now. Please try again in a moment." +:+ urgentLine
  else if str_eqb context "summary" then
    "I couldn't prepare a summary right now. Please try again in a moment."
  else if str_eqb context "upload" then
    "I couldn't analyze that upload right now. You can still type the key details."
  else if str_eqb context "voice_transcription" then
    "I couldn't transcribe that audio clearly. Please try again, or type your question."
  else if str_eqb context "voice_input" then
    "Voice input is not available right now. You can type your question instead."
  else if str_eqb context "tracker" then
    String_ (or_else (prop (uiStrings (cfg st)) "tracker_error_text")
                     (VStr "I couldn't load your updates right now. Try Refresh."))
  else "Something went wrong. Please try again.".



Definition newSessionId (h : Host) : string :=
  "sess-" +:+ slice 2 10 (random36 h).

Definition setStatus (text : string) : State -> State :=
  set_statusLine (if str_eqb text "" then "Connected." else text).

Definition addSystemNote (text : string) (st : State) : State :=
  set_transcript (transcript (page st) ++ [SystemNote text]) st.

(** At most one typing note hangs in the transcript, the one
    [state.typingIndicator] refers to; removing it is removing the typing
    notes. *)
Definition removeTypingIndicator (st : State) : State :=
  set_transcript (List.filter (fun e => negb (is_typing e)) (transcript (page st))) st.

Definition addTypingIndicator (st : State) : State :=
  let st := removeTypingIndicator st in
  set_transcript (transcript (page st) ++ [TypingNote]) st.

Definition appendMessage (role text : string) (payload : value) (st : State) : State :=
  set_transcript (transcript (page st) ++ [Msg role text payload]) st.


(** ** Errors

    A thrown value is an [Error] object: its [name] and its [message]. *)

Record Err := MkErr { err_name : string; err_message : string }.

(** [new Error(message)] *)
Definition Error (message : string) : Err := MkErr "Error" message.

(** [String(err)], that is [Error.prototype.toString]. *)
Definition Err_toString (e : Err) : string :=
  if str_eqb (err_message e) "" then err_name e
  else if str_eqb (err_name e) "" then err_message e
  else err_name e +:+ ": " +:+ err_message e.

(** Reading property [k] of [null] or [undefined] throws; the wording of
    the message is the engine's (V8's here). *)
Definition nullish_read (v : value) (k : string) : Err :=
  MkErr "TypeError"
        ("Cannot read properties of " +:+ String_ v +:+ " (reading '" +:+ k +:+ "')").

(** [err?.message || fallback] *)
Definition message_or (e : Err) (fallback : string) : string :=
  if str_eqb (err_message e) "" then fallback else err_message e.

(** ** The promise ledger panel *)

Definition applyEffortBadge (effort : value) (st : State) : State :=
  match effortBadge (page st) with
  | None => st
  | Some _ =>
      let e := if truthy effort && typeof_object effort then effort else VNull in
      if negb (truthy e) || negb (truthy (prop e "level"))
         || str_eqb (toLowerCase (String_ (prop e "level"))) "low"
      then set_effortBadge (Some (MkBadge true false false "")) st
      else
        let fast := truthy (prop e "fast_path_active") in
        set_effortBadge
          (Some (MkBadge false fast (negb fast)
                   (if fast then "Fast path active: shorter, lower-effort support"
                    else "Keeping this efficient"))) st
  end.

(** [new Date(v).getTime()], [None] for an invalid date. *)
Definition Date_new (h : Host) (v : value) : option Z :=
  match v with
  | VUndef => None
  | VNull | VBool false => Some 0
  | VBool true => Some 1
  | VNum n => if Z.leb (Z.abs n) 8640000000000000 then Some n else None
  | VStr s => Date_parse h s
  | VArr _ | VObj _ => Date_parse h (String_ v)
  end.

(** [Math.round(Math.abs(ms) / (1000 * 60 * 60))]: the quotient is rounded
    to the nearest integer, a half upwards.  On integers this is exact as
    long as the difference of the two times is itself exact in double
    precision (below 2^53 milliseconds). *)
Definition absHours_of (ms : Z) : Z := (Z.abs ms + 1800000) / 3600000.

Definition formatPromiseDue (h : Host) (item : value) : string :=
  if negb (truthy item) || negb (typeof_object item) then ""
  else
    let dueAt :=
      if truthy (prop item "due_at") then Date_new h (prop item "due_at") else None in
    match dueAt with
    | None => ""
    | Some due =>
        let ms := due - clock h in
        let absHours := absHours_of ms in
        if str_eqb (toLowerCase (String_ (or_else (prop item "status") (VStr "")))) "overdue"
        then
          if Z.leb absHours 1 then "Follow-up may be overdue (about an hour)."
          else "Follow-up may be overdue (" +:+ pretty absHours +:+ "h)."
        else if Z.leb ms 0 then "Follow-up window reached."
        else if Z.ltb absHours 1 then "Follow-up window later today."
        else "Follow-up window in ~" +:+ pretty absHours +:+ "h."
    end.

(** The label shown for a lower-cased status: the three entries of the
    table, the two lower-case names every object literal inherits, and
    ["Active"] for anything else. *)
Definition status_label (statusValue : string) : string :=
  if str_eqb statusValue "active" then "Active"
  else if str_eqb statusValue "review" then "Review"
  else if str_eqb statusValue "done" then "Done"
  else if str_eqb statusValue "constructor" then "function Object() { [native code] }"
  else if str_eqb statusValue "__proto__" then "[object Object]"
  else "Active".

(** The card built for one ledger item by the body of the [forEach]. *)
Definition promise_card (h : Host) (item : value) : node :=
  let title :=
    El "div" "promise-title" (String_ (or_else (prop item "title") (VStr "Support commitment"))) [] in
  let statusValue := toLowerCase (String_ (or_else (prop item "status") (VStr "active"))) in
  let status := El "span" ("promise-status " +:+ statusValue) (status_label statusValue) [] in
  let summary :=
    El "div" "promise-summary" (String_ (or_else (prop item "summary") (VStr ""))) [] in
  let due := formatPromiseDue h item in
  let meta := El "div" "promise-meta" due [] in
  El "div" "promise-item" ""
     ([El "div" "promise-top" "" [title; status]; summary]
      ++ (if str_eqb due "" then [] else [meta])).

(** [list.forEach(...)]: cards are appended one by one; an item that is
    [null] or [undefined] makes [item.title] throw and ends the loop. *)
Fixpoint append_cards (h : Host) (items : list value) (sofar : list node)
  : list node * option Err :=
  match items with
  | [] => (sofar, None)
  | item :: rest =>
      if is_nullish item then (sofar, Some (nullish_read item "title"))
      else append_cards h rest (sofar ++ [promise_card h item])
  end.

Definition empty_ledger_text : string :=
  "As we talk, I’ll track what I’ve committed to do next and what is already prepared for you.".

Definition renderPromiseLedger (h : Host) (items effort : value) (st : State)
  : State * option Err :=
  match promiseList (page st) with
  | None => (st, None)
  | Some _ =>
      let st := set_promiseList (Some []) st in
      let st := applyEffortBadge (or_else (or_else effort (customerEffort (conv st))) VNull) st in
      let list := if isArray items then elements items else [] in
      match list with
      | [] => (set_promiseList (Some [El "div" "muted" empty_ledger_text []]) st, None)
      | _ =>
          let '(cards, err) := append_cards h (firstn 6 list) [] in
          (set_promiseList (Some cards) st, err)
      end
  end.

Definition is_promise_card (n : node) : bool := str_eqb (node_cls n) "promise-item".

(** The commitment cards now in the panel. *)
Definition ledger_cards (st : State) : list node :=
  match promiseList (page st) with
  | None => []
  | Some kids => List.filter (fun n => is_promise_card n) kids
  end.

(** ** The plan, artifact and alert panels

    These are painted from one value each; the model keeps that value
    (and not what painting a malformed one could throw). *)

Definition renderCustomerPlan (plan : value) (st : State) : State :=
  if negb (truthy plan) || negb (typeof_object plan)
  then applyEffortBadge VNull (set_planPanel VNull st)
  else
    let st := set_planPanel plan st in
    applyEffortBadge
      (or_else (or_else (prop plan "customer_effort") (customerEffort (conv st))) VNull) st.

Definition renderResolutionArtifacts (artifacts : value) : State -> State :=
  set_resolutionPanel artifacts.

Definition renderAlerts (alerts : value) : State -> State :=
  set_alertsPanel alerts.

(** ** The technical details panel *)

Definition safe_fields : list string :=
  ["session_id"; "tenant"; "channel"; "mode"; "state"; "agent"; "intent";
   "next_actions"; "escalate"].

Definition safeLastResponse (r : value) : value :=
  if truthy r && typeof_object r
  then VObj (map (fun k => (k, prop r k)) safe_fields)
  else VNull.

Definition technical_payload (st : State) : value :=
  VObj [ ("sessionId", VStr (sessionId (conv st)));
         ("customerId", VStr (customerId (cfg st)));
         ("tenant", VStr (tenant (cfg st)));
         ("mode", VStr (mode_str (mode (conv st))));
         ("voiceBackend", VObj [("stt", voiceBackend_stt (conv st));
                                ("tts", voiceBackend_tts (conv st))]);
         ("mediaRecorderSupported", VBool (mediaRecorderSupported (cfg st)));
         ("speechRecognitionSupported", VBool (speechRecognitionSupported (cfg st)));
         ("speechSynthesisSupported", VBool (synthEnabled (cfg st)));
         ("health", lastHealth (cfg st));
         ("lastCapabilities", lastCapabilities (cfg st));
         ("lastResponse", safeLastResponse (lastResponse (conv st)));
         ("lastAlerts", lastAlerts (conv st)) ].

Definition renderTechnical (st : State) : State :=
  set_technicalPre (JSON_stringify (technical_payload st)) st.

(** ** Voice controls *)

(** Audio playback handles are outside the model. *)
Definition stopPlayback (st : State) : State := st.

Definition resetVoiceButton (st : State) : State :=
  let st := set_listening false st in
  let st :=
    if str_eqb (voiceHint (page st)) "Listening..."
    then set_voiceHint "Speak, then press again to stop." st else st in
  if str_eqb (statusLine (page st)) "Listening..." then setStatus "Voice mode." st else st.

Definition stopVoiceInput (st : State) : State := resetVoiceButton st.

Definition setMode (m : string) (st : State) : State :=
  let isVoice := str_eqb m "voice" in
  let st := set_mode (if isVoice then VoiceMode else TextMode) st in
  let st := setStatus (if isVoice then "Voice mode." else "Text mode.") st in
  if isVoice then st
  else set_voiceRetries 0 (set_pendingTranscript VNull (stopVoiceInput st)).

(** ** Suspension points

    An [async] function runs until its first [await], hands the browser
    what it waits for and is resumed later with the outcome.  [fetch] and
    the read of the response body are taken as one suspension. *)

Record Blob := MkBlob { blob_size : Z }.

Record Request := MkRequest { endpoint : string; payload : value }.

Inductive Wait : Type :=
| Net (rq : Request)
| ReadFile (b : Blob).

Inductive Parsed : Type :=
| Json (v : value)
| Unparsable (e : Err).

Inductive Outcome : Type :=
| Rejected (e : Err)
    (* the awaited promise rejects *)
| Fetched (ok : bool) (status : Z) (body : Parsed)
    (* [fetch] resolved; [resp.json()] gave [body] *)
| Spoken (ok : bool) (provider : value) (started : bool)
    (* the speech request resolved; [provider] is the X-TTS-Provider header,
       [started] whether the audio was read and [audio.play()] resolved *)
| FileRead (result : value).
    (* [FileReader.result] after [readAsDataURL] *)

Inductive Result (A : Type) : Type :=
| Ok (a : A)
| Throw (e : Err).
Arguments Ok {A} a.
Arguments Throw {A} e.

(** The places where the modelled functions wait. *)
Inductive Kont : Type :=
| K_message                         (* sendCustomerMessage, in callCustomerMessageAPI *)
| K_speak                           (* sendCustomerMessage, in speak *)
| K_continue (toChannel : string)   (* continueChannel *)
| K_reset                           (* resetSession *)
| K_transcribe_read (mimeType : string)  (* transcribeAndSend, in blobToBase64 *)
| K_transcribe_fetch                (* transcribeAndSend, at the transcription request *)
| K_refreshTracker
| K_refreshCommitments
| K_refreshAlerts.

Record Pending := MkPending { wait : Wait; kont : Kont }.

Definition unexpected : Err := MkErr "TypeError" "unexpected settlement".

Definition channel_of (st : State) (voice other : string) : string :=
  if Mode_eqb (mode (conv st)) VoiceMode then voice else other.

(** *** Background refreshes

    Called without [await]: each issues its request at once and finishes
    on its own later. *)

Definition refreshTracker_start (st : State) : list Pending :=
  [MkPending (Net (MkRequest "/api/v1/customer/references"
                     (VObj [("tenant", VStr (tenant (cfg st)));
                            ("customer_id", VStr (customerId (cfg st)))])))
             K_refreshTracker].

Definition refreshCommitments_start (st : State) : list Pending :=
  match promiseList (page st) with
  | None => []
  | Some _ =>
      [MkPending (Net (MkRequest "/api/v1/customer/commitments"
                         (VObj [("tenant", VStr (tenant (cfg st)));
                                ("session_id", VStr (sessionId (conv st)));
                                ("customer_id", VStr (customerId (cfg st)))])))
                 K_refreshCommitments]
  end.

Definition refreshAlerts_start (st : State) : list Pending :=
  [MkPending (Net (MkRequest "/api/v1/customer/alerts"
                     (VObj [("tenant", VStr (tenant (cfg st)));
                            ("session_id", VStr (sessionId (conv st)));
                            ("customer_id", VStr (customerId (cfg st)))])))
             K_refreshAlerts].

(** [state.promiseLedger?.length], as a truth value. *)
Definition has_length (v : value) : bool :=
  match v with
  | VArr xs => negb (Nat.eqb (List.length xs) 0)
  | VStr s => negb (str_eqb s "")
  | _ => false
  end.

Definition refreshCommitments_catch (h : Host) (st : State) : State :=
  if has_length (promiseLedger (conv st)) then st
  else fst (renderPromiseLedger h (VArr []) (customerEffort (conv st)) st).

Definition refreshCommitments_resume (o : Outcome) (h : Host) (st : State) : State :=
  match o with
  | Fetched true _ (Json data) =>
      if is_nullish data then refreshCommitments_catch h st
      else
        let st := set_promiseLedger
                    (if isArray (prop data "commitments") then prop data "commitments"
                     else VArr []) st in
        let st := set_customerEffort
                    (or_else (prop data "customer_effort") (customerEffort (conv st))) st in
        match renderPromiseLedger h (promiseLedger (conv st)) (customerEffort (conv st)) st with
        | (st, None) => st
        | (st, Some _) => refreshCommitments_catch h st
        end
  | _ => refreshCommitments_catch h st
  end.

Definition refreshAlerts_resume (o : Outcome) (st : State) : State :=
  match o with
  | Fetched true _ (Json data) =>
      if is_nullish data
      then (if has_length (lastAlerts (conv st)) then st else renderAlerts (VArr []) st)
      else
        let st := set_lastAlerts
                    (if isArray (prop data "alerts") then prop data "alerts" else VArr []) st in
        renderAlerts (lastAlerts (conv st)) st
  | _ => if has_length (lastAlerts (conv st)) then st else renderAlerts (VArr []) st
  end.

(** *** sendCustomerMessage *)

Definition callCustomerMessageAPI_request
    (content : string) (channelOverride : option string) (st : State) : Request :=
  let channel :=
    match channelOverride with
    | Some c => if str_eqb c "" then channel_of st "voice" "web" else c
    | None => channel_of st "voice" "web"
    end in
  MkRequest (channel_of st "/api/v1/customer/voice/simulate" "/api/v1/customer/message")
            (VObj [("session_id", VStr (sessionId (conv st)));
                   ("customer_id", VStr (customerId (cfg st)));
                   ("channel", VStr channel);
                   ("content", VStr content);
                   ("tenant", VStr (tenant (cfg st)));
                   ("metadata", VObj [("ui_mode", VStr (mode_str (mode (conv st))))])]).

(** What [callCustomerMessageAPI] returns or throws once its request has
    settled. *)
Definition callCustomerMessageAPI_result (o : Outcome) (st : State) : Result value :=
  match o with
  | Rejected e => Throw e
  | Fetched false _ body =>
      let fallbackMessage := userFacingErrorMessage "send" st in
      Throw (Error
        match body with
        | Json maybe =>
            match prop maybe "message" with
            | VStr m => if truthy maybe && negb (str_eqb (trim m) "") then trim m
                        else fallbackMessage
            | _ => fallbackMessage
            end
        | Unparsable _ => fallbackMessage
        end)
  | Fetched true _ (Json data) => Ok data
  | Fetched true _ (Unparsable e) => Throw e
  | _ => Throw unexpected
  end.

Definition send_catch (err : Err) (st : State) : State :=
  let st := removeTypingIndicator st in
  let st := appendMessage "agent" (message_or err (userFacingErrorMessage "send" st)) VUndef st in
  setStatus "Unable to send right now." st.

Definition send_finally (st : State) : State :=
  renderTechnical (set_sendBtnDisabled false (set_sending false st)).

Definition speak_request (clean : string) (st : State) : Request :=
  MkRequest "/api/v1/customer/voice/speak"
            (VObj [("text", VStr clean); ("voice_mode", VStr "support");
                   ("tenant", VStr (tenant (cfg st)))]).

(** [speak] after its request has settled. *)
Definition speak_resume (o : Outcome) (st : State) : State :=
  match o with
  | Spoken true provider true =>
      renderTechnical (set_tts (or_else provider (VStr "server")) st)
  | _ =>
      renderTechnical (if synthEnabled (cfg st) then set_tts (VStr "browser") st else st)
  end.

Definition sendCustomerMessage
    (text : option string) (channelOverride : option string) (st : State)
  : State * list Pending :=
  let content := trim (match text with Some t => t | None => inputValue (page st) end) in
  if str_eqb content "" || sending (conv st) then (st, [])
  else
    let st := appendMessage "user" content VUndef st in
    let st := match text with None => set_inputValue "" st | Some _ => st end in
    let st := addTypingIndicator (removeTypingIndicator st) in
    let st := set_sending true st in
    let st := set_sendBtnDisabled true st in
    let st := setStatus "Sending..." st in
    (st, [MkPending (Net (callCustomerMessageAPI_request content channelOverride st)) K_message]).

Definition sendCustomerMessage_resume (o : Outcome) (h : Host) (st : State)
  : State * list Pending :=
  match callCustomerMessageAPI_result o st with
  | Throw err => (send_finally (send_catch err st), [])
  | Ok data =>
      let st := set_lastResponse data st in
      if is_nullish data
      then (send_finally (send_catch (nullish_read data "promise_ledger") st), [])
      else
        let st := set_promiseLedger
                    (if isArray (prop data "promise_ledger") then prop data "promise_ledger"
                     else promiseLedger (conv st)) st in
        let st := set_customerEffort
                    (or_else (prop data "customer_effort") (customerEffort (conv st))) st in
        let st := removeTypingIndicator st in
        let st := appendMessage "agent"
                    (String_ (or_else (or_else (prop data "message") (prop data "response_text"))
                                      (VStr "I can help with that."))) data st in
        let st := renderCustomerPlan (or_else (prop data "customer_plan") VNull) st in
        match renderPromiseLedger h (promiseLedger (conv st)) (customerEffort (conv st)) st with
        | (st, Some err) => (send_finally (send_catch err st), [])
        | (st, None) =>
            let st := renderResolutionArtifacts
                        (or_else (prop data "resolution_artifacts") (VObj [])) st in
            let st :=
              if truthy (opt_prop (prop data "follow_up_summary") "summary")
                 && truthy (prop data "support_reference")
              then addSystemNote "Summary and next steps are saved for this request." st
              else st in
            let started :=
              (refreshTracker_start st ++ refreshCommitments_start st
               ++ refreshAlerts_start st)%list in
            let st := setStatus "Connected." st in
            if Mode_eqb (mode (conv st)) VoiceMode then
              let spoken :=
                or_else (or_else (or_else (prop data "spoken_message") (prop data "message"))
                                 (prop data "response_text")) (VStr "") in
              let st := set_voiceRetries 0 st in
              let clean := trim (String_ (or_else spoken (VStr ""))) in
              if str_eqb clean "" then (send_finally st, started)
              else
                let st := stopPlayback st in
                (st, (started ++ [MkPending (Net (speak_request clean st)) K_speak])%list)
            else (send_finally st, started)
        end
  end.

Definition sendCustomerMessage_after_speak (o : Outcome) (st : State) : State :=
  send_finally (speak_resume o st).

(** *** continueChannel *)

Definition continueChannel (toChannel : string) (st : State) : State * list Pending :=
  (st, [MkPending
          (Net (MkRequest "/api/v1/customer/continue-channel"
                  (VObj [("session_id", VStr (sessionId (conv st)));
                         ("customer_id", VStr (customerId (cfg st)));
                         ("from_channel", VStr (channel_of st "voice" "web_chat"));
                         ("to_channel", VStr toChannel);
                         ("tenant", VStr (tenant (cfg st)))])))
          (K_continue toChannel)]).

Definition phone_fallback_note (st : State) : string :=
  let phone := String_ (or_else (brand_callCenterPhone (cfg st))
                                (VStr "the official support number")) in
  "Could not prepare phone continuation automatically. " +:+ brand_or "Support" st
  +:+ "'s published call center number is " +:+ phone +:+ ". Wait times may vary.".

(** The [catch] block; the error itself is not looked at. *)
Definition continueChannel_catch (toChannel : string) (st : State) : State :=
  if str_eqb toChannel "phone" then
    setStatus "Phone number shown." (addSystemNote (phone_fallback_note st) st)
  else if str_eqb toChannel "sms" then
    setStatus "SMS continuation unavailable."
      (addSystemNote
         "Could not prepare SMS continuation automatically. You can still use Summary to prepare a support recap, or continue by phone."
         st)
  else
    setStatus ((if str_eqb toChannel "phone" then "Phone" else "SMS")
               +:+ " continuation unavailable.")
      (addSystemNote ("I couldn't prepare " +:+ toChannel
                      +:+ " continuation right now. Please try again in a moment.") st).

Definition continueChannel_resume (toChannel : string) (o : Outcome) (st : State)
  : State * list Pending :=
  match o with
  | Fetched true _ (Json data) =>
      if is_nullish data then (continueChannel_catch toChannel st, [])
      else
        let st := addSystemNote
                    (String_ (or_else (prop data "customer_message")
                                (VStr ("Prepared continuation to " +:+ toChannel +:+ "."))))
                    st in
        let st :=
          if str_eqb toChannel "phone" && truthy (prop data "phone_number")
          then addSystemNote ("Call " +:+ brand_or "support" st +:+ ": "
                              +:+ String_ (prop data "phone_number")) st
          else st in
        let st :=
          if str_eqb toChannel "sms" && truthy (prop data "sms_preview")
          then addSystemNote
                 "SMS summary is ready. You can use Summary if you want a fresh recap after another update."
                 st
          else st in
        let st := setStatus ("Prepared continuation to " +:+ toChannel +:+ ".") st in
        (st, refreshTracker_start st)
  | _ => (continueChannel_catch toChannel st, [])
  end.

(** *** resetSession *)

Definition resetSession (st : State) : State * list Pending :=
  let st := stopVoiceInput (stopPlayback st) in
  (st, [MkPending
          (Net (MkRequest "/api/v1/customer/session/reset"
                  (VObj [("session_id", VStr (sessionId (conv st)));
                         ("customer_id", VStr (customerId (cfg st)));
                         ("channel", VStr (channel_of st "voice" "web"));
                         ("tenant", VStr (tenant (cfg st)))])))
          K_reset]).

(** The local reset goes ahead whatever became of the request. *)
Definition resetSession_resume (h : Host) (st : State) : State * list Pending :=
  let st := set_sessionId (newSessionId h) st in
  let st := set_lastResponse VNull st in
  let st := set_promiseLedger (VArr []) st in
  let st := set_customerEffort VNull st in
  let st := set_transcript [] st in
  let st := appendMessage "agent"
              (String_ (or_else (prop (uiStrings (cfg st)) "reset_greeting")
                          (VStr ("New conversation started. I can help with support issues for "
                                 +:+ brand_or "your account" st +:+ "."))))
              VUndef st in
  let st := renderCustomerPlan VNull st in
  let st := fst (renderPromiseLedger h (VArr []) VNull st) in
  let st := renderResolutionArtifacts (VObj []) st in
  let st := renderAlerts (VArr []) st in
  let st := set_inputValue "" st in
  let st := setStatus "Connected." st in
  let st := addSystemNote "Started a new request." st in
  let started :=
    (refreshTracker_start st ++ refreshCommitments_start st ++ refreshAlerts_start st)%list in
  (renderTechnical st, started).

(** *** transcribeAndSend *)

Definition heard_too_little : string :=
  "I couldn't hear enough audio. Please try again and speak a little longer.".

Definition transcribeAndSend (blob : option Blob) (mimeType : string) (st : State)
  : State * list Pending :=
  match blob with
  | Some b =>
      if Z.ltb (blob_size b) 300
      then (set_voiceHint "Try again and speak a little longer."
              (addSystemNote heard_too_little st), [])
      else
        let st := setStatus "Transcribing..." st in
        let st := set_voiceHint "Transcribing..." st in
        (st, [MkPending (ReadFile b) (K_transcribe_read mimeType)])
  | None =>
      (set_voiceHint "Try again and speak a little longer."
         (addSystemNote heard_too_little st), [])
  end.

Definition transcribe_catch (err : Err) (st : State) : State :=
  let st := addSystemNote (message_or err (userFacingErrorMessage "voice_transcription" st)) st in
  let st := set_voiceHint "Voice transcription failed. You can type your question instead." st in
  setStatus "Voice transcription failed." st.

(** [result.slice(comma + 1)] after the first comma, the whole text when
    there is none. *)
Fixpoint after_comma_aux (whole s : string) : string :=
  match s with
  | String c s' => if Ascii.eqb c ","%char then s' else after_comma_aux whole s'
  | EmptyString => whole
  end.
Definition after_comma (s : string) : string := after_comma_aux s s.

Definition transcribe_request (audioBase64 mimeType : string) (st : State) : Request :=
  MkRequest "/api/v1/customer/voice/transcribe"
            (VObj [("audio_base64", VStr audioBase64);
                   ("mime_type", VStr (if str_eqb mimeType "" then "audio/webm" else mimeType));
                   ("language", VStr "en");
                   ("session_id", VStr (sessionId (conv st)));
                   ("customer_id", VStr (customerId (cfg st)));
                   ("tenant", VStr (tenant (cfg st)))]).

Definition transcribe_after_read (mimeType : string) (o : Outcome) (st : State)
  : State * list Pending :=
  match o with
  | FileRead result =>
      let audioBase64 := after_comma (String_ (or_else result (VStr ""))) in
      (st, [MkPending (Net (transcribe_request audioBase64 mimeType st)) K_transcribe_fetch])
  | Rejected e => (transcribe_catch e st, [])
  | _ => (transcribe_catch unexpected st, [])
  end.

Definition not_a_function : Err :=
  MkErr "TypeError" "(intermediate value).trim is not a function".

Definition transcribe_after_fetch (o : Outcome) (st : State) : State * list Pending :=
  match o with
  | Rejected e => (transcribe_catch e st, [])
  | Fetched _ _ (Unparsable e) => (transcribe_catch e st, [])
  | Fetched ok _ (Json data) =>
      if is_nullish data
      then (transcribe_catch (nullish_read data (if ok then "ok" else "message")) st, [])
      else if negb ok || negb (truthy (prop data "ok"))
      then (transcribe_catch
              (Error (String_ (or_else (prop data "message")
                                 (VStr (userFacingErrorMessage "voice_transcription" st))))) st,
            [])
      else
        let st := set_stt (or_else (prop data "provider") (VStr "server")) st in
        let st := set_pendingTranscript (or_else (prop data "text") (VStr "")) st in
        let st := set_voiceHint
                    ("Heard: " +:+ String dquote (String_ (prop data "text") +:+ String dquote ""))
                    st in
        let st := renderTechnical st in
        if truthy (prop data "needs_confirmation") then
          let st := set_voiceRetries (voiceRetries (conv st) + 1) st in
          if strict_eq_str (prop data "reason") "likely_agent_echo" then
              let st := set_voiceHint
                          "I may have heard the agent audio. Try again after playback ends." st in
              let st := addSystemNote
                          (String_ (or_else (prop data "message")
                             (VStr "I may have picked up the agent audio. Please try again after the reply finishes.")))
                          st in
              let st := setStatus "Voice input needs another try." st in
              (if Z.leb 2 (voiceRetries (conv st))
               then addSystemNote
                      "If voice keeps failing, type your question or upload a document/photo and I can extract the details."
                      st
               else st, [])
          else
              let st := set_inputValue (String_ (or_else (prop data "text") (VStr ""))) st in
              let st := addSystemNote
                          (String_ (or_else (prop data "message")
                                      (VStr "Please check the transcript before sending."))) st in
              (setStatus "Please review the transcript before sending." st, [])
        else
          let st := set_voiceRetries 0 st in
          match prop data "text" with
          | VStr t => sendCustomerMessage (Some t) (Some "voice") st
          | VUndef | VNull => sendCustomerMessage None (Some "voice") st
          | _ => (transcribe_catch not_a_function st, [])
          end
  | _ => (transcribe_catch unexpected st, [])
  end.

(** ** The event loop

    The tracker panel is outside the model, so nothing is done when its
    refresh settles. *)

Definition resume (k : Kont) (o : Outcome) (h : Host) (st : State) : State * list Pending :=
  match k with
  | K_message => sendCustomerMessage_resume o h st
  | K_speak => (sendCustomerMessage_after_speak o st, [])
  | K_continue toChannel => continueChannel_resume toChannel o st
  | K_reset => resetSession_resume h st
  | K_transcribe_read mimeType => transcribe_after_read mimeType o st
  | K_transcribe_fetch => transcribe_after_fetch o st
  | K_refreshTracker => (st, [])
  | K_refreshCommitments => (refreshCommitments_resume o h st, [])
  | K_refreshAlerts => (refreshAlerts_resume o st, [])
  end.

(** The page at some instant: the state, what is awaited, and every network
    request issued so far. *)
Record World := MkWorld {
  wstate : State;
  inflight : list Pending;
  sent : list Request }.

Inductive Event : Type :=
| EvSend (text : option string) (channelOverride : option string)
| EvContinue (toChannel : string)
| EvReset
| EvSetMode (m : string)
| EvVoiceClip (blob : option Blob) (mimeType : string)
| EvSettle (i : nat) (o : Outcome).

Definition requests_of (ps : list Pending) : list Request :=
  omap (fun p => match wait p with Net rq => Some rq | ReadFile _ => None end) ps.

Definition started (w : World) (r : State * list Pending) (rest : list Pending) : World :=
  MkWorld (fst r) (rest ++ snd r) (sent w ++ requests_of (snd r)).

Definition step (e : Event) (h : Host) (w : World) : World :=
  match e with
  | EvSend text channelOverride =>
      started w (sendCustomerMessage text channelOverride (wstate w)) (inflight w)
  | EvContinue toChannel => started w (continueChannel toChannel (wstate w)) (inflight w)
  | EvReset => started w (resetSession (wstate w)) (inflight w)
  | EvSetMode m => started w (setMode m (wstate w), []) (inflight w)
  | EvVoiceClip blob mimeType =>
      started w (transcribeAndSend blob mimeType (wstate w)) (inflight w)
  | EvSettle i o =>
      match inflight w !! i with
      | Some p => started w (resume (kont p) o h (wstate w)) (delete i (inflight w))
      | None => w
      end
  end.

Fixpoint run (es : list (Event * Host)) (w : World) : World :=
  match es with
  | [] => w
  | (e, h) :: rest => run rest (step e h w)
  end.

(** A turn is in flight while [sendCustomerMessage] is suspended. *)
Definition is_turn (p : Pending) : bool :=
  match kont p with K_message | K_speak => true | _ => false end.

Definition turns_in_flight (w : World) : nat := List.length (List.filter (fun p => is_turn p) (inflight w)).


(** The [state] literal of the script with the session id drawn at load,
    on a page [pg]. *)
Definition initial_state (tenant_ : string) (synth : bool) (pg : Page) (h : Host) : State :=
  MkState
    (MkCfg tenant_ "cust-web-demo" synth true true (VStr "Support") VNull (VObj []) VNull VNull)
    (MkConv TextMode (newSessionId h) false false VNull (VArr []) VNull 0 VNull
            (VStr "unknown") (VStr "browser") (VArr []))
    pg.

Definition blank_page : Page :=
  MkPage [] "" "" false "" (Some []) (Some (MkBadge true false false "")) "" VNull VNull VNull.

(** Worlds the page can be in: it starts with no turn in flight (other
    requests may be), and moves by events. *)
Inductive reachable : World -> Prop :=
| reachable_idle w :
    sending (conv (wstate w)) = false -> turns_in_flight w = 0%nat -> reachable w
| reachable_step w e h : reachable w -> reachable (step e h w).

(** ** The earlier revision of the script

    The file also carries the revision before the promise ledger and
    [userFacingErrorMessage] were added.  Its functions start the same way;
    what differs is how a response and an error are handled.  Its page has
    no effort badge and no ledger panel. *)

Module Legacy.

Definition renderTechnical (st : State) : State :=
  set_technicalPre
    (JSON_stringify
       (VObj [ ("sessionId", VStr (sessionId (conv st)));
               ("customerId", VStr (customerId (cfg st)));
               ("tenant", VStr (tenant (cfg st)));
               ("mode", VStr (mode_str (mode (conv st))));
               ("voiceBackend", VObj [("stt", voiceBackend_stt (conv st));
                                      ("tts", voiceBackend_tts (conv st))]);
               ("mediaRecorderSupported", VBool (mediaRecorderSupported (cfg st)));
               ("speechRecognitionSupported", VBool (speechRecognitionSupported (cfg st)));
               ("speechSynthesisSupported", VBool (synthEnabled (cfg st)));
               ("health", lastHealth (cfg st));
               ("lastCapabilities", lastCapabilities (cfg st));
               ("lastResponse", lastResponse (conv st));
               ("lastAlerts", lastAlerts (conv st)) ])) st.

Definition callCustomerMessageAPI_result (o : Outcome) : Result value :=
  match o with
  | Rejected e => Throw e
  | Fetched false status _ => Throw (Error ("Request failed (" +:+ pretty status +:+ ")"))
  | Fetched true _ (Json data) => Ok data
  | Fetched true _ (Unparsable e) => Throw e
  | _ => Throw unexpected
  end.

Definition send_catch (err : Err) (st : State) : State :=
  let st := removeTypingIndicator st in
  let st := appendMessage "agent"
              ("Sorry, I ran into a problem while sending your request. " +:+ Err_toString err)
              VUndef st in
  setStatus "Unable to send right now." st.

Definition send_finally (st : State) : State :=
  renderTechnical (set_sendBtnDisabled false (set_sending false st)).

Definition sendCustomerMessage_resume (o : Outcome) (st : State) : State * list Pending :=
  match callCustomerMessageAPI_result o with
  | Throw err => (send_finally (send_catch err st), [])
  | Ok data =>
      let st := set_lastResponse data st in
      if is_nullish data
      then (send_finally (send_catch (nullish_read data "message") st), [])
      else
        let st := removeTypingIndicator st in
        let st := appendMessage "agent"
                    (String_ (or_else (or_else (prop data "message") (prop data "response_text"))
                                      (VStr "I can help with that."))) data st in
        let st := renderCustomerPlan (or_else (prop data "customer_plan") VNull) st in
        let st := renderResolutionArtifacts
                    (or_else (prop data "resolution_artifacts") (VObj [])) st in
        let st :=
          if truthy (opt_prop (prop data "follow_up_summary") "summary")
             && truthy (prop data "support_reference")
          then addSystemNote "Summary and next steps are saved for this request." st
          else st in
        let started := (refreshTracker_start st ++ refreshAlerts_start st)%list in
        let st := setStatus "Connected." st in
        if Mode_eqb (mode (conv st)) VoiceMode then
          let spoken :=
            or_else (or_else (or_else (prop data "spoken_message") (prop data "message"))
                             (prop data "response_text")) (VStr "") in
          let st := set_voiceRetries 0 st in
          let clean := trim (String_ (or_else spoken (VStr ""))) in
          if str_eqb clean "" then (send_finally st, started)
          else (stopPlayback st,
                (started ++ [MkPending (Net (speak_request clean st)) K_speak])%list)
        else (send_finally st, started)
  end.

Definition continueChannel_catch (toChannel : string) (err : Err) (st : State) : State :=
  if str_eqb toChannel "phone" then
    setStatus "Phone number shown." (addSystemNote (phone_fallback_note st) st)
  else if str_eqb toChannel "sms" then
    setStatus "SMS continuation unavailable."
      (addSystemNote
         "Could not prepare SMS continuation automatically. You can still use Summary to prepare a support recap, or continue by phone."
         st)
  else
    addSystemNote ("Could not prepare " +:+ toChannel +:+ " continuation. "
                   +:+ Err_toString err) st.

Definition continueChannel_resume (toChannel : string) (o : Outcome) (st : State)
  : State * list Pending :=
  match o with
  | Rejected e => (continueChannel_catch toChannel e st, [])
  | Fetched false status _ =>
      (continueChannel_catch toChannel (Error ("HTTP " +:+ pretty status)) st, [])
  | Fetched true _ (Unparsable e) => (continueChannel_catch toChannel e st, [])
  | Fetched true _ (Json data) =>
      if is_nullish data
      then (continueChannel_catch toChannel (nullish_read data "customer_message") st, [])
      else
        let st := addSystemNote
                    (String_ (or_else (prop data "customer_message")
                                (VStr ("Prepared continuation to " +:+ toChannel +:+ "."))))
                    st in
        let st :=
          if str_eqb toChannel "phone" && truthy (prop data "phone_number")
          then addSystemNote ("Call " +:+ brand_or "support" st +:+ ": "
                              +:+ String_ (prop data "phone_number")) st
          else st in
        let st :=
          if str_eqb toChannel "sms" && truthy (prop data "sms_preview")
          then addSystemNote
                 "SMS summary is ready. You can use Summary if you want a fresh recap after another update."
                 st
          else st in
        let st := setStatus ("Prepared continuation to " +:+ toChannel +:+ ".") st in
        (st, refreshTracker_start st)
  | _ => (continueChannel_catch toChannel unexpected st, [])
  end.

End Legacy.

(** ** The turn contract of the orchestrator *)

Module Core.

(** Modelled from the spec: the data model of section 3 and the handler
    and response contracts of sections 4.1 to 4.3 (the orchestrator, its
    handlers and its stores are not among the sources). *)

Inductive Intent :=
| booking | refund | baggage | disruption | compensation | accessibility
| complaint | escalation | general.

Inductive Stage :=
| new | collecting_context | awaiting_confirmation | resolving | resolved | escalated.

Inductive Status := active | review | done.

Definition Intent_eqb (a b : Intent) : bool :=
  match a, b with
  | booking, booking | refund, refund | baggage, baggage | disruption, disruption
  | compensation, compensation | accessibility, accessibility | complaint, complaint
  | escalation, escalation | general, general => true
  | _, _ => false
  end.



Record Commitment := MkCommitment {
  c_title : string; c_summary : string; c_status : Status;
  c_created_at : Z; c_due_at : option Z }.

(** A resolution artifact: its kind and the fields of that kind. *)
Record Artifact := MkArtifact { a_kind : string; a_fields : list (string * string) }.

Record Extraction := MkExtraction {
  x_intent : Intent;
  x_confidence : Z;       (* percent, 0..100 *)
  x_entities : list (string * string);
  x_urgency : Z;          (* 0..10 *)
  x_sentiment : Z }.

(** A commitment a handler intends: title, summary, due time. *)
Record Intended := MkIntended { i_title : string; i_summary : string; i_due_at : option Z }.

Record HandlerResult := MkHandlerResult {
  h_message : string;
  h_artifacts : list Artifact;
  h_commitments : list Intended;
  h_next_actions : list string;
  h_escalate : bool;
  h_needs_confirmation : bool;
  h_complete : bool }.

Record Response := MkResponse {
  r_message : string;
  r_artifacts : list Artifact;
  r_next_actions : list string;
  r_plan_intent : Intent;
  r_plan_stage : Stage;
  r_escalate : bool }.

Record TurnRecord := MkTurnRecord {
  t_text : string; t_intent : Intent; t_confidence : Z; t_handler : Intent;
  t_response : string; t_artifacts : list Artifact; t_time : Z }.

Record Session := MkSession {
  s_customer : string;
  s_tenant : string;
  s_channel : string;
  s_stage : Stage;
  s_entities : gmap string string;
  s_turn_count : nat;
  s_sentiment : list Z;
  s_turns : list TurnRecord;
  s_ledger : list Commitment;
  s_escalated : bool;
  s_last : option (Z * Response);   (* last sequence number applied, and its response *)
  s_created : Z;
  s_updated : Z }.

(** The empirical constants, kept as configuration. *)
Record Config := MkConfig {
  window : nat;
  confidence_threshold : Z;
  urgency_threshold : Z;
  negative_threshold : Z;
  retry_threshold : Z }.

(** The pluggable capabilities the core calls through a stable interface. *)
Record Capabilities := MkCapabilities {
  extract : string -> Session -> Extraction;
  handle : Intent -> Session -> gmap string string -> HandlerResult;
  required : Intent -> list string }.

Record TurnRequest := MkTurnRequest {
  q_session_id : string;
  q_customer_id : string;
  q_tenant_id : string;
  q_channel : string;
  q_text : string;
  q_seq : Z;
  q_voice_retries : Z }.

Definition new_session (q : TurnRequest) (now : Z) : Session :=
  MkSession (q_customer_id q) (q_tenant_id q) (q_channel q) new ∅ 0 [] [] [] false None now now.

(** The last [n] elements. *)
Definition last_n {A} (n : nat) (l : list A) : list A := drop (List.length l - n) l.

Definition is_active (c : Commitment) : bool :=
  match c_status c with active => true | _ => false end.

(** Modelled from the spec: the promise ledger's [record] (the ledger code
    is not among the sources).  At most one active commitment per title:
    recording a title that is active updates that entry's summary and due
    time instead of adding a second one. *)
Fixpoint record (now : Z) (i : Intended) (ledger : list Commitment) : list Commitment :=
  match ledger with
  | [] => [MkCommitment (i_title i) (i_summary i) active now (i_due_at i)]
  | c :: rest =>
      if is_active c && str_eqb (c_title c) (i_title i)
      then MkCommitment (c_title c) (i_summary i) active (c_created_at c) (i_due_at i) :: rest
      else c :: record now i rest
  end.

(** Modelled from the spec: the escalation policy (not among the sources).
    A hand-off is due on high urgency, on two strongly negative turns in a
    row, on an explicit request for a human, or after too many voice
    retries. *)
Definition policy (cfg : Config) (x : Extraction) (sentiments : list Z) (retries : Z) : bool :=
  Z.leb (urgency_threshold cfg) (x_urgency x)
  || match rev sentiments with
     | a :: b :: _ => Z.leb a (negative_threshold cfg) && Z.leb b (negative_threshold cfg)
     | _ => false
     end
  || Intent_eqb (x_intent x) escalation
  || Z.ltb (retry_threshold cfg) retries.

Definition has_all (entities : gmap string string) (keys : list string) : bool :=
  forallb (fun k => bool_decide (is_Some (entities !! k))) keys.

(** Modelled from the spec: the session state machine of section 4.1 (the
    orchestrator is not among the sources). *)
Definition next_stage (st : Stage) (escalate low_confidence missing confirm complete outstanding : bool)
  : Stage :=
  if escalate then escalated
  else if confirm then awaiting_confirmation
  else
    match st with
    | new => if low_confidence || missing then collecting_context else resolving
    | collecting_context => if missing then collecting_context else resolving
    | resolving | awaiting_confirmation =>
        if complete && negb outstanding then resolved else st
    | _ => st
    end.

(** Modelled from the spec: what one new turn does to its session
    (extractor, router, handler, ledger, escalation policy, state machine),
    computed as one snapshot. *)
Definition apply_turn (cfg : Config) (caps : Capabilities) (now : Z)
    (s : Session) (q : TurnRequest) : Session * Response :=
  let x := extract caps (q_text q) s in
  let low := Z.ltb (x_confidence x) (confidence_threshold cfg) in
  let intent := if low then general else x_intent x in
  let entities := foldl (fun m kv => <[fst kv := snd kv]> m) (s_entities s) (x_entities x) in
  let res := handle caps intent s entities in
  let ledger := foldl (fun l i => record now i l) (s_ledger s) (h_commitments res) in
  let sentiments := last_n (window cfg) (s_sentiment s ++ [x_sentiment x]) in
  let escalate :=
    s_escalated s || h_escalate res || policy cfg x sentiments (q_voice_retries q) in
  let stage :=
    next_stage (s_stage s) escalate low (negb (has_all entities (required caps intent)))
               (h_needs_confirmation res) (h_complete res) (existsb is_active ledger) in
  let response :=
    MkResponse (h_message res) (h_artifacts res) (h_next_actions res) intent stage escalate in
  let turn :=
    MkTurnRecord (q_text q) (x_intent x) (x_confidence x) intent (h_message res)
                 (h_artifacts res) now in
  (MkSession (s_customer s) (s_tenant s) (q_channel q) stage entities (S (s_turn_count s))
             sentiments (last_n (window cfg) (s_turns s ++ [turn])) ledger escalate
             (Some (q_seq q, response)) (s_created s) now,
   response).

(** Modelled from the spec: [processTurn] (the orchestrator is not among
    the sources).  An unknown session id creates the session; a delivery
    whose sequence number is not above the last one applied is a
    redelivery and is answered with the response computed before, with no
    reprocessing; anything else is applied and committed in one write. *)
Definition processTurn (cfg : Config) (caps : Capabilities) (now : Z)
    (store : gmap string Session) (q : TurnRequest) : gmap string Session * Response :=
  let s := default (new_session q now) (store !! q_session_id q) in
  match s_last s with
  | Some (seq, r) =>
      if Z.leb (q_seq q) seq then (store, r)
      else let '(s', r') := apply_turn cfg caps now s q in (<[q_session_id q := s']> store, r')
  | None =>
      let '(s', r') := apply_turn cfg caps now s q in (<[q_session_id q := s']> store, r')
  end.

(** Modelled from the spec: the explicit clear by the human agent system,
    the only way an escalation flag goes back. *)
Definition clearEscalation (sid : string) (store : gmap string Session) : gmap string Session :=
  alter (fun s => MkSession (s_customer s) (s_tenant s) (s_channel s) (s_stage s)
                    (s_entities s) (s_turn_count s) (s_sentiment s) (s_turns s) (s_ledger s)
                    false (s_last s) (s_created s) (s_updated s)) sid store.





(** A keyword extractor and handlers small enough to run by hand. *)
Definition demo_caps : Capabilities :=
  MkCapabilities
    (fun text _ =>
       if includes "human" (toLowerCase text)
       then MkExtraction escalation 95 [] 9 (-2)
       else if includes "refund" (toLowerCase text)
       then MkExtraction refund 90 [("booking_reference", "AB12CD")] 3 0
       else MkExtraction general 40 [] 1 0)
    (fun intent _ _ =>
       match intent with
       | refund =>
           MkHandlerResult "I will check refund eligibility."
             [MkArtifact "refund_estimate" [("amount_cad", "120")]]
             [MkIntended "Refund review" "Checking eligibility" (Some 3600000)]
             ["submit_refund"] false false false
       | escalation =>
           MkHandlerResult "I am handing you to a person." [] [] [] true false false
       | _ => MkHandlerResult "How can I help?" [] [] [] false false false
       end)
    (fun intent => match intent with refund => ["booking_reference"] | _ => [] end).

Definition demo_cfg : Config := MkConfig 10 60 8 (-1) 2.

Definition demo_turn (seq : Z) (text : string) : TurnRequest :=
  MkTurnRequest "sess-4fzyo82m" "cust-web-demo" "flair" "web" text seq 0.

End Core.

(** ** More of the page script *)

(** [s.replaceAll("_", " ")] *)
Fixpoint underscores_to_spaces (s : string) : string :=
  match s with
  | String c s' =>
      String (if Ascii.eqb c "_"%char then " "%char else c) (underscores_to_spaces s')
  | EmptyString => EmptyString
  end.

Fixpoint has_char (x : ascii) (s : string) : bool :=
  match s with
  | String c s' => Ascii.eqb c x || has_char x s'
  | EmptyString => false
  end.

Definition mapSpeechErrorToMessage (code : value) (st : State) : string :=
  let normalized := toLowerCase (String_ (or_else code (VStr ""))) in
  if str_eqb normalized "not-allowed" || str_eqb normalized "service-not-allowed" then
    "Microphone permission is blocked. Allow microphone access and try again."
  else if str_eqb normalized "no-speech" then
    "I did not hear speech clearly. Please try again and speak a little closer to the microphone."
  else if str_eqb normalized "audio-capture" then
    "Your microphone is not available right now. Check your device input and try again."
  else if str_eqb normalized "network" then
    "Voice input had a connection problem. Please try again or type your question."
  else userFacingErrorMessage "voice_input" st.

(** [s.split("/")] *)
Fixpoint split_slash (s : string) : list string :=
  match s with
  | EmptyString => [EmptyString]
  | String c s' =>
      if Ascii.eqb c "/"%char then EmptyString :: split_slash s'
      else match split_slash s' with
           | p :: ps => String c p :: ps
           | [] => [String c EmptyString]
           end
  end.

Definition detectTenantFromPath (pathname : string) : string :=
  let parts :=
    List.filter (fun p => negb (str_eqb p ""))
                (split_slash (if str_eqb pathname "" then "/" else pathname)) in
  match parts with
  | first :: second :: _ => if str_eqb first "support" then toLowerCase second else "flair"
  | _ => "flair"
  end.

(** *** The meta block of an agent message *)

(** The keys of [nextActionPrompts]. *)
Definition nextActionPrompts_keys : list string :=
  ["provide_booking_reference"; "verify_booking_reference";
   "provide_flight_number_or_booking_reference"; "rebooking_options"; "compensation_check";
   "confirm_rebooking_option"; "submit_refund"; "choose_travel_credit";
   "continue_current_request"; "switch_to_new_request"; "urgent_human_help_if_needed";
   "human_agent_if_urgent"; "check_rebooking_options"; "contact_bank_if_fraud";
   "share_booking_or_transaction_details"; "upload_supporting_documents";
   "share_claim_number"; "provide_member_id"; "provide_policy_number";
   "provide_account_number"; "provide_service_address"; "provide_order_number";
   "provide_prior_authorization_reference"; "provider_directory_search";
   "explain_coverage_review"; "report_outage"; "share_tracking_number"].

(** What every object literal inherits, all of it truthy. *)
Definition object_prototype_names : list string :=
  ["constructor"; "__proto__"; "hasOwnProperty"; "isPrototypeOf"; "propertyIsEnumerable";
   "toLocaleString"; "toString"; "valueOf"; "__defineGetter__"; "__defineSetter__";
   "__lookupGetter__"; "__lookupSetter__"].

(** Is [nextActionPrompts[act]] truthy?  Every prompt is a text that is
    not empty. *)
Definition is_mapped (act : string) : bool :=
  existsb (str_eqb act) nextActionPrompts_keys || existsb (str_eqb act) object_prototype_names.

Definition action_chip (actRaw : value) : node :=
  let act := String_ (or_else actRaw (VStr "")) in
  if is_mapped act then El "button" "chip action-btn" (underscores_to_spaces act) []
  else El "span" "chip" (underscores_to_spaces act) [].

(** The row of chips, when there is one. *)
Definition action_row (payload : value) : list node :=
  let next_actions := prop payload "next_actions" in
  if isArray next_actions && has_length next_actions
  then [El "div" "chip-row" "" (map action_chip (firstn 6 (elements next_actions)))]
  else [].

Record Link := MkLink { link_label : value; link_url : value }.

(** [seen.has(url)] compares as a [Set] does: texts, numbers and booleans
    by content, objects and arrays by identity, and two parsed objects are
    never the same one. *)
Definition same_value (a b : value) : bool :=
  match a, b with
  | VStr s, VStr t => str_eqb s t
  | VNum n, VNum m => Z.eqb n m
  | VBool x, VBool y => Bool.eqb x y
  | _, _ => false
  end.

(** One pass of a [forEach] body: the candidate is taken when it is there,
    has a url and the url was not seen. *)
Definition push_link (url_key : string) (label_of : value -> value) (links : list Link)
    (cand : value) : list Link :=
  if truthy cand && truthy (prop cand url_key)
     && negb (existsb (same_value (prop cand url_key)) (map link_url links))
  then (links ++ [MkLink (label_of cand) (prop cand url_key)])%list
  else links.

Definition from_array (v : value) : list value := if isArray v then elements v else [].

Definition message_links (payload : value) : list Link :=
  let links :=
    foldl (push_link "url"
             (fun opt => or_else (prop opt "label") (VStr "Official self-service")))
          [] (firstn 2 (from_array (prop payload "self_service_options"))) in
  let links :=
    foldl (push_link "source_url"
             (fun item => if truthy (prop item "topic")
                          then VStr ("Official " +:+ String_ (prop item "topic"))
                          else VStr "Official support info"))
          links (firstn 1 (from_array (prop payload "official_next_steps"))) in
  match links with
  | [] =>
      foldl (push_link "source_url"
               (fun cite => if truthy (prop cite "topic")
                            then VStr ("Source: " +:+ String_ (prop cite "topic"))
                            else VStr "Source"))
            links (firstn 1 (from_array (prop payload "citations")))
  | _ => links
  end.

(** What [appendMessage] hangs below the text of a message: the chip row
    and the stack of links, for an agent message with a payload. *)
Definition message_meta (role : string) (payload : value) : list node * list Link :=
  if str_eqb role "agent" && truthy payload
  then (action_row payload, message_links payload)
  else ([], []).

(** *** Collapsible panels *)

(** A toggle button and its body: the [aria-expanded] attribute of the one,
    whether the other carries the class [hidden]. *)
Record Panel := MkPanel { aria_expanded : option string; body_hidden : bool }.

Definition toggleCollapse (p : Panel) : Panel :=
  let expanded := match aria_expanded p with Some a => str_eqb a "true" | None => false end in
  MkPanel (Some (if negb expanded then "true" else "false")) expanded.

(** *** Branding *)

(** What [applyBranding] assigns to [state.brand]. *)
Definition applyBranding (capData : value) (st : State) : State :=
  let branding := or_else (opt_prop capData "branding") (VObj []) in
  let supportContact := or_else (opt_prop capData "support_contact") (VObj []) in
  let productName :=
    or_else (or_else (prop branding "product_name") (opt_prop capData "product_name"))
            (VStr "Support") in
  let brandName := or_else (prop branding "brand_name") productName in
  MkState
    (MkCfg (tenant (cfg st)) (customerId (cfg st)) (synthEnabled (cfg st))
           (mediaRecorderSupported (cfg st)) (speechRecognitionSupported (cfg st))
           brandName (or_else (prop supportContact "call_center_phone") VNull)
           (uiStrings (cfg st)) (lastCapabilities (cfg st)) (lastHealth (cfg st)))
    (conv st) (page st).

(** *** sendFollowUpSummary *)

Definition sendFollowUpSummary_request (st : State) : Request :=
  MkRequest "/api/v1/customer/follow-up-summary"
            (VObj [("session_id", VStr (sessionId (conv st)));
                   ("customer_id", VStr (customerId (cfg st)));
                   ("channel", VStr (channel_of st "voice" "web"));
                   ("delivery_channel", VStr "sms");
                   ("tenant", VStr (tenant (cfg st)))]).

Definition summary_catch (err : Err) (st : State) : State :=
  addSystemNote (message_or err (userFacingErrorMessage "summary" st)) st.

(** The body is read before the status is looked at. *)
Definition sendFollowUpSummary_resume (o : Outcome) (st : State) : State * list Pending :=
  match o with
  | Rejected e => (summary_catch e st, [])
  | Fetched _ _ (Unparsable e) => (summary_catch e st, [])
  | Fetched false _ (Json _) =>
      (summary_catch (Error (userFacingErrorMessage "summary" st)) st, [])
  | Fetched true _ (Json data) =>
      if is_nullish data then (summary_catch (nullish_read data "ok") st, [])
      else if negb (truthy (prop data "ok")) then
        (setStatus "Summary unavailable yet."
           (addSystemNote
              (String_ (or_else (prop data "message")
                          (VStr "Ask a question first, then I can prepare a summary."))) st),
         [])
      else
        let st := addSystemNote "Summary prepared. You can continue by SMS or keep going here." st in
        (st, refreshTracker_start st)
  | _ => (summary_catch unexpected st, [])
  end.

(** *** handleUploadFile *)

Record File := MkFile { file_name : string; file_type : string; file_blob : Blob }.

Inductive UploadKont : Type :=
| K_upload_read (file : File)
| K_upload_fetch.

(** [Object.keys(v)] with [v[k]] beside each key. *)
Fixpoint indexed {A} (i : nat) (xs : list A) : list (string * A) :=
  match xs with
  | [] => []
  | x :: rest => (pretty (Z.of_nat i), x) :: indexed (S i) rest
  end.

Fixpoint chars (s : string) : list value :=
  match s with
  | String c s' => VStr (String c EmptyString) :: chars s'
  | EmptyString => []
  end.

Definition own_entries (v : value) : list (string * value) :=
  match v with
  | VObj fields => map (fun kv => (fst kv, assoc (fst kv) fields)) fields
  | VArr xs => indexed 0 xs
  | VStr s => indexed 0 (chars s)
  | _ => []
  end.

Definition upload_catch (err : Err) (st : State) : State :=
  setStatus "Upload analysis failed."
    (addSystemNote (message_or err (userFacingErrorMessage "upload" st)) st).

Definition handleUploadFile (file : option File) (st : State)
  : State * option (Wait * UploadKont) :=
  match file with
  | None => (st, None)
  | Some f => (setStatus "Analyzing upload..." st, Some (ReadFile (file_blob f), K_upload_read f))
  end.

Definition upload_request (f : File) (base64 : string) (st : State) : Request :=
  MkRequest "/api/v1/customer/upload/analyze"
            (VObj [("file_name", VStr (file_name f));
                   ("mime_type", VStr (if str_eqb (file_type f) ""
                                       then "application/octet-stream" else file_type f));
                   ("content_base64", VStr base64);
                   ("tenant", VStr (tenant (cfg st)))]).

Definition upload_after_read (f : File) (o : Outcome) (st : State)
  : State * option (Wait * UploadKont) :=
  match o with
  | FileRead result =>
      (st, Some (Net (upload_request f (after_comma (String_ (or_else result (VStr "")))) st),
                 K_upload_fetch))
  | Rejected e => (upload_catch e st, None)
  | _ => (upload_catch unexpected st, None)
  end.

Definition upload_note (data : value) : string :=
  let extracted := or_else (prop data "entities") (VObj []) in
  match own_entries extracted with
  | [] => "Upload analyzed (" +:+ String_ (prop data "extraction_method")
          +:+ "). I did not extract key details automatically."
  | entries =>
      "Upload analyzed (" +:+ String_ (prop data "extraction_method") +:+ "). Found: "
      +:+ join ", " (map (fun kv => fst kv +:+ "=" +:+ String_ (snd kv)) entries)
  end.

Definition upload_after_fetch (o : Outcome) (st : State) : State :=
  match o with
  | Rejected e => upload_catch e st
  | Fetched _ _ (Unparsable e) => upload_catch e st
  | Fetched ok _ (Json data) =>
      if negb ok then upload_catch (Error (userFacingErrorMessage "upload" st)) st
      else if is_nullish data then upload_catch (nullish_read data "ok") st
      else if negb (truthy (prop data "ok"))
      then upload_catch (Error (userFacingErrorMessage "upload" st)) st
      else
        let st := addSystemNote (upload_note data) st in
        if truthy (prop data "suggested_message")
        then setStatus "Upload analyzed. Review or send the suggested message."
               (set_inputValue (String_ (prop data "suggested_message")) st)
        else setStatus "Upload analyzed." st
  | _ => upload_catch unexpected st
  end.

(** ** Vocabulary of the further statements *)


(** The items before the first one that is [null] or [undefined]. *)
Fixpoint leading (items : list value) : list value :=
  match items with
  | [] => []
  | item :: rest => if is_nullish item then [] else item :: leading rest
  end.


(** The send button is disabled exactly while [state.sending] is set. *)
Definition button_tracks_sending (st : State) : Prop :=
  sendBtnDisabled (page st) = sending (conv st).

(** Does settling the [i]-th awaited operation resume [resetSession]? *)
Definition settles_reset (e : Event) (w : World) : bool :=
  match e with
  | EvSettle i _ =>
      match inflight w !! i with
      | Some p => match kont p with K_reset => true | _ => false end
      | None => false
      end
  | _ => false
  end.

(** What a segment of code leaves alone when it is no part of a turn and
    no reset: the session id, the sending flag and the send button. *)
Definition frame (st st' : State) : Prop :=
  sessionId (conv st') = sessionId (conv st) /\
  sending (conv st') = sending (conv st) /\
  sendBtnDisabled (page st') = sendBtnDisabled (page st).

(** What any segment of code other than the local reset does to the
    session id, the sending flag and the send button: the id stays, and
    flag and button are cleared together, set together or left alone. *)
Definition in_step (st st' : State) : Prop :=
  sessionId (conv st') = sessionId (conv st) /\
  ((sending (conv st') = false /\ sendBtnDisabled (page st') = false) \/
   (sending (conv st') = true /\ sendBtnDisabled (page st') = true) \/
   (sending (conv st') = sending (conv st) /\
    sendBtnDisabled (page st') = sendBtnDisabled (page st))).

(** Does the transcript show the "Agent is responding..." note? *)
Definition typing (st : State) : bool := existsb is_typing (transcript (page st)).

(** Is the answer to a message request among what is awaited? *)
Definition awaits_message (ps : list Pending) : bool :=
  existsb (fun p => match kont p with K_message => true | _ => false end) ps.

(** What a segment of code may do to the typing note: leave it as it is,
    or show it while starting to wait for the answer to a message. *)
Definition typing_kept (st : State) (r : State * list Pending) : Prop :=
  typing (fst r) = typing st \/ awaits_message (snd r) = true.

(** While the typing note shows, a message is awaited. *)
Definition typing_invariant (w : World) : Prop :=
  typing (wstate w) = true -> awaits_message (inflight w) = true.

(** ** Vocabulary of the statements below *)

(** A clip that is absent or under 300 bytes. *)
Definition too_short (blob : option Blob) : Prop :=
  match blob with None => True | Some b => blob_size b < 300 end.

(** [v && typeof v === "object"]: the guard of [renderTechnical] and of
    [formatPromiseDue]. *)
Definition is_object (r : value) : bool := truthy r && typeof_object r.

(** The status a ledger item was delivered with, as [formatPromiseDue]
    compares it. *)
Definition stored_status (item : value) : string :=
  toLowerCase (String_ (or_else (prop item "status") (VStr ""))).

(** [Date.parse] at the one date text the examples use. *)
Definition parse_sample (s : string) : option Z :=
  if str_eqb s "2026-03-01T12:00:00Z" then Some 1772366400000 else None.

(** A browser whose clock reads [now]. *)
Definition host_at (now : Z) : Host := MkHost now "0.4fzyo82mvyr" parse_sample.

(** The page right after load, for the examples. *)
Definition sample_state : State := initial_state "flair" true blank_page (host_at 1772373600000).

Definition sample_commitment : value :=
  VObj [("title", VStr "Refund review"); ("summary", VStr "I will check refund eligibility.");
        ("status", VStr "active"); ("due_at", VStr "2026-03-01T12:00:00Z")].

(** Every way the [try] block of [continueChannel] can fail: the request
    is rejected (network error), the status is an error (as when the
    delivery mechanism is unavailable), or the body is not a JSON value
    with properties. *)
Definition call_failed (o : Outcome) : bool :=
  match o with
  | Fetched true _ (Json data) => is_nullish data
  | _ => true
  end.



(** Two draws of [Math.random().toString(36)] that differ only after the
    tenth character. *)
Definition draw_a : Host := MkHost 0 "0.4fzyo82mvyr" parse_sample.
Definition draw_b : Host := MkHost 0 "0.4fzyo82mabc" parse_sample.


(** The turns among what is awaited. *)
Definition turns (ps : list Pending) : nat := List.length (List.filter (fun p => is_turn p) ps).

(** A segment of code that neither starts nor ends a turn. *)
Definition quiet (st : State) (r : State * list Pending) : Prop :=
  sending (conv (fst r)) = sending (conv st) /\ turns (snd r) = 0%nat.


(** The page with one turn on its way, for the examples. *)
Definition world_with_turn_in_flight : World :=
  step (EvSend (Some "Where is my bag?") None) (host_at 0) (MkWorld sample_state [] []).

(** While [state.sending] is set exactly one turn is awaited, and none
    otherwise. *)
Definition one_turn_invariant (w : World) : Prop :=
  turns (inflight w) = if sending (conv (wstate w)) then 1%nat else 0%nat.

(** * Properties *)

(** ** What the setters leave alone *)

Lemma conv_on_page f st : conv (on_page f st) = conv st.
Proof. reflexivity. Qed.

Lemma cfg_on_page f st : cfg (on_page f st) = cfg st.
Proof. reflexivity. Qed.

Lemma cfg_on_conv f st : cfg (on_conv f st) = cfg st.
Proof. reflexivity. Qed.

Lemma page_on_conv f st : page (on_conv f st) = page st.
Proof. reflexivity. Qed.

(** ** Functions that only paint *)

Lemma conv_setStatus t st : conv (setStatus t st) = conv st.
Proof. reflexivity. Qed.

Lemma conv_addSystemNote t st : conv (addSystemNote t st) = conv st.
Proof. reflexivity. Qed.

Lemma conv_appendMessage r t p st : conv (appendMessage r t p st) = conv st.
Proof. reflexivity. Qed.

Lemma conv_removeTypingIndicator st : conv (removeTypingIndicator st) = conv st.
Proof. reflexivity. Qed.

Lemma conv_addTypingIndicator st : conv (addTypingIndicator st) = conv st.
Proof. reflexivity. Qed.

Lemma conv_applyEffortBadge e st : conv (applyEffortBadge e st) = conv st.
Proof.
  unfold applyEffortBadge. destruct (effortBadge (page st)); [|reflexivity].
  repeat match goal with |- context [if ?b then _ else _] => destruct b end; reflexivity.
Qed.

Lemma conv_renderPromiseLedger h items effort st :
  conv (fst (renderPromiseLedger h items effort st)) = conv st.
Proof.
  unfold renderPromiseLedger. destruct (promiseList (page st)); [|reflexivity].
  destruct (if isArray items then elements items else []).
  - cbn [fst]. unfold set_promiseList at 1.
    rewrite conv_on_page, conv_applyEffortBadge. reflexivity.
  - destruct (append_cards _ _ _). cbn [fst]. unfold set_promiseList at 1.
    rewrite conv_on_page, conv_applyEffortBadge. reflexivity.
Qed.

Lemma conv_renderCustomerPlan plan st : conv (renderCustomerPlan plan st) = conv st.
Proof.
  unfold renderCustomerPlan. destruct (_ || _); rewrite conv_applyEffortBadge; reflexivity.
Qed.

Lemma conv_renderResolutionArtifacts a st : conv (renderResolutionArtifacts a st) = conv st.
Proof. reflexivity. Qed.

Lemma conv_renderAlerts a st : conv (renderAlerts a st) = conv st.
Proof. reflexivity. Qed.

Lemma conv_renderTechnical st : conv (renderTechnical st) = conv st.
Proof. reflexivity. Qed.

Lemma conv_legacy_renderTechnical st : conv (Legacy.renderTechnical st) = conv st.
Proof. reflexivity. Qed.

Create Rewrite HintDb paint.
#[local] Hint Rewrite conv_on_page conv_setStatus conv_addSystemNote conv_appendMessage
  conv_removeTypingIndicator conv_addTypingIndicator conv_applyEffortBadge
  conv_renderPromiseLedger conv_renderCustomerPlan conv_renderResolutionArtifacts
  conv_renderAlerts conv_renderTechnical conv_legacy_renderTechnical : paint.

Ltac unfold_setters :=
  unfold set_transcript, set_statusLine, set_inputValue, set_sendBtnDisabled, set_voiceHint,
    set_promiseList, set_effortBadge, set_technicalPre, set_planPanel, set_resolutionPanel,
    set_alertsPanel, set_mode, set_sessionId, set_sending, set_listening, set_lastResponse,
    set_promiseLedger, set_customerEffort, set_voiceRetries, set_pendingTranscript, set_stt,
    set_tts, set_lastAlerts in *.

(** Read a field of [conv] or [cfg] through setters and painting. *)
Ltac paint :=
  repeat first
    [ progress (unfold_setters;
                cbn [cfg conv page on_conv on_page mode sessionId sending listening
                     lastResponse promiseLedger customerEffort voiceRetries
                     pendingTranscript voiceBackend_stt voiceBackend_tts lastAlerts
                     fst snd])
    | progress autorewrite with paint ].

(** ** The ledger panel never shows more than six cards *)

Lemma append_cards_length h items sofar :
  (List.length (fst (append_cards h items sofar)) <= List.length sofar + List.length items)%nat.
Proof.
  revert sofar; induction items as [|item rest IH]; intros sofar; cbn.
  - lia.
  - destruct (is_nullish item); cbn.
    + lia.
    + specialize (IH (sofar ++ [promise_card h item])%list).
      rewrite length_app in IH. cbn in IH. lia.
Qed.

Lemma filter_length_le {A} (f : A -> bool) (l : list A) :
  (List.length (List.filter f l) <= List.length l)%nat.
Proof.
  induction l as [|a l IH]; cbn; [lia|]. destruct (f a); cbn; lia.
Qed.

Lemma ledger_cards_set_promiseList kids st :
  ledger_cards (set_promiseList (Some kids) st) = List.filter (fun n => is_promise_card n) kids.
Proof. reflexivity. Qed.

Lemma promiseList_applyEffortBadge e st :
  promiseList (page (applyEffortBadge e st)) = promiseList (page st).
Proof.
  unfold applyEffortBadge.
  destruct (effortBadge (page st)); [|reflexivity].
  repeat match goal with |- context [if ?b then _ else _] => destruct b end; reflexivity.
Qed.

(** C8: whatever is passed as the list of commitments, the promise-ledger
    panel holds at most six commitment cards after [renderPromiseLedger]. *)
Theorem renderPromiseLedger_at_most_six_cards h items effort st :
  (List.length (ledger_cards (fst (renderPromiseLedger h items effort st))) <= 6)%nat.
Proof.
  unfold renderPromiseLedger.
  destruct (promiseList (page st)) as [old|] eqn:Hpl.
  - set (items6 := if isArray items then elements items else []).
    destruct items6 as [|i0 rest] eqn:Hitems.
    + cbn [fst]. rewrite ledger_cards_set_promiseList. cbn [List.filter].
      destruct (is_promise_card _); cbn; lia.
    + destruct (append_cards h (firstn 6 (i0 :: rest)) []) as [cards err] eqn:Hc.
      cbn [fst]. rewrite ledger_cards_set_promiseList.
      pose proof (append_cards_length h (firstn 6 (i0 :: rest)) []) as Hlen.
      rewrite Hc in Hlen. cbn [fst] in Hlen.
      pose proof (filter_length_le (fun n => is_promise_card n) cards) as Hf.
      pose proof (firstn_le_length 6 (i0 :: rest)) as H6.
      change (List.length (@nil node)) with 0%nat in Hlen.
      lia.
  - cbn [fst]. unfold ledger_cards. rewrite Hpl. cbn. lia.
Qed.

(** ** A clip that is too short is not sent for transcription *)

(** C10: for a clip that is absent or smaller than 300 bytes,
    [transcribeAndSend] issues no request and leaves nothing waiting; it
    adds the note asking to try again and speak longer. *)
Theorem transcribeAndSend_short_clip_not_sent blob mimeType h w :
  too_short blob ->
  let w' := step (EvVoiceClip blob mimeType) h w in
  sent w' = sent w /\ inflight w' = inflight w /\
  transcript (page (wstate w')) = (transcript (page (wstate w)) ++ [SystemNote heard_too_little])%list /\
  voiceHint (page (wstate w')) = "Try again and speak a little longer.".
Proof.
  intros Hshort. unfold step, started, transcribeAndSend.
  assert (Hguard : match blob with
                   | Some b => Z.ltb (blob_size b) 300 = true
                   | None => True
                   end).
  { destruct blob as [b|]; [|exact I]. apply Z.ltb_lt. exact Hshort. }
  destruct blob as [b|]; [rewrite Hguard|]; cbn;
    rewrite !app_nil_r; repeat split; reflexivity.
Qed.

Lemma transcribeAndSend_short_clip_witness :
  too_short (Some (MkBlob 120)) /\
  sent (step (EvVoiceClip (Some (MkBlob 120)) "audio/webm")
          (MkHost 0 "0.4fzyo82mvyr" (fun _ => None))
          (MkWorld (initial_state "flair" true blank_page
                      (MkHost 0 "0.4fzyo82mvyr" (fun _ => None))) [] [])) = [].
Proof.
  split.
  - unfold too_short; cbn; lia.
  - apply (transcribeAndSend_short_clip_not_sent (Some (MkBlob 120)) "audio/webm").
    unfold too_short; cbn; lia.
Defined.

(** ** The technical panel shows nine fields of the last response *)




(** ** What the ledger says about a commitment that is past due *)

(** C3, counterexample: a commitment with status [active] whose due time
    was two hours ago is rendered with the badge "Active" and the line
    "Follow-up window reached."; nothing in its card says overdue. *)
Lemma past_due_active_commitment_not_shown_overdue :
  let h := host_at 1772373600000 in
  strict_eq_str (prop sample_commitment "status") "active" = true /\
  Date_new h (prop sample_commitment "due_at") = Some 1772366400000 /\
  1772366400000 < clock h /\
  ledger_cards (fst (renderPromiseLedger h (VArr [sample_commitment]) VNull sample_state))
  = [El "div" "promise-item" ""
       [El "div" "promise-top" ""
          [El "div" "promise-title" "Refund review" [];
           El "span" "promise-status active" "Active" []];
        El "div" "promise-summary" "I will check refund eligibility." [];
        El "div" "promise-meta" "Follow-up window reached." []]] /\
  existsb (mentions "overdue")
    (ledger_cards (fst (renderPromiseLedger h (VArr [sample_commitment]) VNull sample_state)))
  = false.
Proof. vm_compute. repeat split; reflexivity. Qed.

(** C3, as the code has it: for a commitment whose due time is at or
    before the current time and whose delivered status is not [overdue],
    the due line is "Follow-up window reached.", computed when the panel is
    drawn from [due_at] and the clock; the "may be overdue" wording is what
    a delivered status of [overdue] gives. *)
Theorem promise_due_line_follows_delivered_status h item t :
  is_object item = true ->
  truthy (prop item "due_at") = true ->
  Date_new h (prop item "due_at") = Some t ->
  (stored_status item <> "overdue" -> t <= clock h ->
   formatPromiseDue h item = "Follow-up window reached.") /\
  (stored_status item = "overdue" ->
   formatPromiseDue h item
   = if Z.leb (absHours_of (t - clock h)) 1
     then "Follow-up may be overdue (about an hour)."
     else "Follow-up may be overdue (" +:+ pretty (absHours_of (t - clock h)) +:+ "h).").
Proof.
  intros Hobj Hdue Hdate. unfold formatPromiseDue.
  unfold is_object in Hobj. apply andb_prop in Hobj as [Htr Hty].
  rewrite Htr, Hty, Hdue, Hdate. cbn [negb orb].
  fold (stored_status item). unfold str_eqb. split.
  - intros Hne Hle. rewrite bool_decide_eq_false_2 by exact Hne.
    replace (Z.leb (t - clock h) 0) with true; [reflexivity|].
    symmetry. apply Z.leb_le. lia.
  - intros Heq. rewrite bool_decide_eq_true_2 by exact Heq. reflexivity.
Qed.

Lemma promise_due_line_follows_delivered_status_witness :
  formatPromiseDue (host_at 1772373600000) sample_commitment = "Follow-up window reached.".
Proof.
  apply (promise_due_line_follows_delivered_status
           (host_at 1772373600000) sample_commitment 1772366400000).
  - reflexivity.
  - reflexivity.
  - reflexivity.
  - vm_compute. discriminate.
  - vm_compute. discriminate.
Defined.

(** ** Continuing by phone when the request fails *)

Lemma prefix_app p post : String.prefix p (p +:+ post) = true.
Proof.
  induction p as [|c p IH].
  - destruct post; reflexivity.
  - change (String c p +:+ post) with (String c (p +:+ post)). cbn [String.prefix].
    destruct (ascii_dec c c) as [_|Hne]; [exact IH|congruence].
Qed.

Lemma includes_here p post : includes p (p +:+ post) = true.
Proof.
  destruct (p +:+ post) eqn:E; cbn [includes]; rewrite <- E, prefix_app; reflexivity.
Qed.

Lemma includes_skip p pre s : includes p s = true -> includes p (pre +:+ s) = true.
Proof.
  intros H. induction pre as [|c pre IH]; [exact H|].
  change (String c pre +:+ s) with (String c (pre +:+ s)).
  cbn [includes]. rewrite IH. apply orb_true_r.
Qed.

(** C2, counterexample: right after load no call-center number is known
    ([state.brand.callCenterPhone] is [null]); when the request then fails,
    the note names "the official support number" and holds no digit. *)
Lemma phone_fallback_without_published_number :
  let w := run [(EvContinue "phone", host_at 0);
                (EvSettle 0 (Rejected (MkErr "TypeError" "Failed to fetch")), host_at 0)]
               (MkWorld sample_state [] []) in
  brand_callCenterPhone (cfg sample_state) = VNull /\
  transcript (page (wstate w))
  = [SystemNote "Could not prepare phone continuation automatically. Support's published call center number is the official support number. Wait times may vary."] /\
  has_digit (phone_fallback_note sample_state) = false.
Proof. vm_compute. repeat split; reflexivity. Qed.

(** C2, as the code has it: however the continue-channel request to the
    phone channel fails, [continueChannel] ends normally with nothing left
    waiting, sets the status to "Phone number shown." and adds one note;
    the note carries the brand's call-center number when one has been
    loaded, and the words "the official support number" otherwise.  The
    earlier revision does the same. *)
Theorem continueChannel_phone_failure_note o st :
  call_failed o = true ->
  continueChannel_resume "phone" o st
  = (setStatus "Phone number shown." (addSystemNote (phone_fallback_note st) st), []) /\
  Legacy.continueChannel_resume "phone" o st
  = (setStatus "Phone number shown." (addSystemNote (phone_fallback_note st) st), []) /\
  (forall p, brand_callCenterPhone (cfg st) = VStr p -> p <> "" ->
             includes p (phone_fallback_note st) = true) /\
  (truthy (brand_callCenterPhone (cfg st)) = false ->
   includes "the official support number" (phone_fallback_note st) = true).
Proof.
  intros Hfail. repeat split.
  - destruct o as [e|[|] status [data|e]|ok prov started0|result]; cbn in Hfail |- *;
      try reflexivity. rewrite Hfail. reflexivity.
  - destruct o as [e|[|] status [data|e]|ok prov started0|result]; cbn in Hfail |- *;
      try reflexivity. rewrite Hfail. reflexivity.
  - intros p Hp Hne. unfold phone_fallback_note. rewrite Hp.
    assert (Ht : or_else (VStr p) (VStr "the official support number") = VStr p).
    { unfold or_else, truthy, str_eqb. rewrite bool_decide_eq_false_2 by exact Hne. reflexivity. }
    rewrite Ht. cbn [String_].
    do 3 apply includes_skip. apply includes_here.
  - intros Hno. unfold phone_fallback_note, or_else. rewrite Hno. cbn [String_].
    do 3 apply includes_skip. apply includes_here.
Qed.

Lemma continueChannel_phone_failure_note_witness :
  let st := MkState (MkCfg "flair" "cust-web-demo" true true true (VStr "Flair Airlines")
                       (VStr "1-833-711-2333") (VObj []) VNull VNull)
                    (conv sample_state) (page sample_state) in
  call_failed (Fetched false 503 (Unparsable (MkErr "SyntaxError" "Unexpected end of JSON input")))
  = true /\
  includes "1-833-711-2333" (phone_fallback_note st) = true.
Proof.
  intros st. split; [reflexivity|].
  apply (continueChannel_phone_failure_note
           (Fetched false 503 (Unparsable (MkErr "SyntaxError" "Unexpected end of JSON input"))) st);
    [reflexivity | reflexivity | discriminate].
Defined.

(** ** What the customer reads when a turn fails *)






(** Outside an error status the reply is the message of whatever was
    thrown: here the browser's own text for a request that could not be
    made. *)
Example rejected_fetch_text_reaches_transcript :
  transcript (page (fst (sendCustomerMessage_resume
                           (Rejected (MkErr "TypeError" "Failed to fetch")) (host_at 0)
                           sample_state)))
  = [Msg "agent" "Failed to fetch" VUndef].
Proof. reflexivity. Qed.

(** The earlier revision puts the text of the error itself into the
    reply. *)
Example legacy_reply_carries_error_text :
  transcript (page (fst (Legacy.sendCustomerMessage_resume
                           (Fetched false 500 (Unparsable (MkErr "SyntaxError" "Unexpected token <")))
                           sample_state)))
  = [Msg "agent" "Sorry, I ran into a problem while sending your request. Error: Request failed (500)"
       VUndef].
Proof. reflexivity. Qed.

(** ** Session identifiers *)

(** C4, counterexample: two draws that differ give the same identifier,
    and a reset under the second draw leaves the page with the identifier
    it had before. *)
Lemma session_ids_can_coincide :
  random36 draw_a <> random36 draw_b /\
  newSessionId draw_a = newSessionId draw_b /\
  sessionId (conv (fst (resetSession_resume draw_b (initial_state "flair" true blank_page draw_a))))
  = sessionId (conv (initial_state "flair" true blank_page draw_a)).
Proof. split; [discriminate|split; reflexivity]. Qed.

Lemma append_inj_l p a b : p +:+ a = p +:+ b -> a = b.
Proof.
  induction p as [|c p IH]; intros H; [exact H|].
  apply IH. change (String c (p +:+ a) = String c (p +:+ b)) in H. congruence.
Qed.

Lemma sessionId_resetSession_resume h st :
  sessionId (conv (fst (resetSession_resume h st))) = newSessionId h.
Proof.
  unfold resetSession_resume. paint. reflexivity.
Qed.

(** C4, as the code has it: [newSessionId] is "sess-" followed by
    characters 2 to 9 of a random draw written in base 36, so two
    identifiers are equal exactly when the two draws agree on those
    characters; [resetSession] posts the old identifier to the reset
    endpoint and then takes a newly drawn one. *)
Theorem session_id_is_drawn h1 h2 st :
  (newSessionId h1 = newSessionId h2 <->
   slice 2 10 (random36 h1) = slice 2 10 (random36 h2)) /\
  sessionId (conv (fst (resetSession_resume h2 st))) = newSessionId h2 /\
  exists rest,
    requests_of (snd (resetSession st))
    = [MkRequest "/api/v1/customer/session/reset"
         (VObj (("session_id", VStr (sessionId (conv st))) :: rest))].
Proof.
  split; [|split].
  - unfold newSessionId. split; [apply append_inj_l|intros ->; reflexivity].
  - apply sessionId_resetSession_resume.
  - eexists. unfold resetSession. cbn [snd requests_of omap list_omap wait].
    unfold stopVoiceInput, stopPlayback.
    assert (Hc : forall s, sessionId (conv (resetVoiceButton s)) = sessionId (conv s)).
    { intros s. unfold resetVoiceButton.
      repeat match goal with |- context [if ?b then _ else _] => destruct b end; reflexivity. }
    rewrite Hc. reflexivity.
Qed.

(** ** The turn contract: redelivery and escalation *)

Section TurnContract.

Import Core.

Variables (cfg : Config) (caps : Capabilities).











End TurnContract.


(** After the explicit clear a new turn is judged afresh: the flag does
    go back, but only this way. *)
Example clear_releases_escalation :
  let s1 := fst (Core.processTurn Core.demo_cfg Core.demo_caps 0 ∅
                   (Core.demo_turn 1 "I need a human agent now")) in
  let calm := Core.demo_turn 2 "Please refund my ticket" in
  Core.r_escalate (snd (Core.processTurn Core.demo_cfg Core.demo_caps 10 s1 calm)) = true /\
  Core.r_escalate
    (snd (Core.processTurn Core.demo_cfg Core.demo_caps 10
            (Core.clearEscalation "sess-4fzyo82m" s1) calm)) = false.
Proof. vm_compute. split; reflexivity. Qed.

(** A redelivery run by hand: the second delivery of turn 1 changes
    nothing and repeats the response. *)
Example redelivery_runs :
  let q := Core.demo_turn 1 "Please refund my ticket" in
  let first := Core.processTurn Core.demo_cfg Core.demo_caps 0 ∅ q in
  let second := Core.processTurn Core.demo_cfg Core.demo_caps 5 (fst first) q in
  snd second = snd first /\
  List.length (Core.r_artifacts (snd second)) = 1%nat /\
  (Core.s_ledger <$> (fst second !! "sess-4fzyo82m"))
  = Some [Core.MkCommitment "Refund review" "Checking eligibility" Core.active 0 (Some 3600000)].
Proof. vm_compute. repeat split; reflexivity. Qed.

(** ** One turn at a time *)

Ltac split_ifs :=
  repeat match goal with
         | |- context [if ?b then _ else _] => destruct b
         end.

Lemma turns_app a b : turns (a ++ b) = (turns a + turns b)%nat.
Proof. unfold turns. rewrite List.filter_app, length_app. reflexivity. Qed.

Lemma turns_delete (l : list Pending) i p :
  l !! i = Some p -> turns l = ((if is_turn p then 1 else 0) + turns (delete i l))%nat.
Proof.
  revert i. induction l as [|a l IH]; intros [|i] H; cbn in H; try discriminate.
  - injection H as ->. unfold turns. cbn. destruct (is_turn p); reflexivity.
  - specialize (IH i H). change (delete (S i) (a :: l)) with (a :: delete i l).
    unfold turns in *. cbn [List.filter]. destruct (is_turn a); cbn [List.length]; lia.
Qed.

Lemma sending_resetVoiceButton st : sending (conv (resetVoiceButton st)) = sending (conv st).
Proof. unfold resetVoiceButton. split_ifs; reflexivity. Qed.

Lemma sending_setMode m st : sending (conv (setMode m st)) = sending (conv st).
Proof.
  unfold setMode, stopVoiceInput. destruct (str_eqb m "voice"); paint.
  - reflexivity.
  - rewrite sending_resetVoiceButton. paint. reflexivity.
Qed.

Lemma continueChannel_catch_sending c st :
  sending (conv (continueChannel_catch c st)) = sending (conv st).
Proof. unfold continueChannel_catch. split_ifs; reflexivity. Qed.

Lemma continueChannel_resume_quiet c o st : quiet st (continueChannel_resume c o st).
Proof.
  unfold quiet, continueChannel_resume.
  destruct o as [e|[|] status [data|e]|ok prov st0|result]; cbn [fst snd];
    try (split; [apply continueChannel_catch_sending|reflexivity]).
  destruct (is_nullish data); cbn [fst snd];
    [split; [apply continueChannel_catch_sending|reflexivity]|].
  split; [|reflexivity]. paint.
  split_ifs; paint; reflexivity.
Qed.

Lemma refresh_starts_quiet st :
  turns (refreshTracker_start st ++ refreshCommitments_start st ++ refreshAlerts_start st) = 0%nat.
Proof.
  unfold refreshCommitments_start. destruct (promiseList (page st)); reflexivity.
Qed.

Lemma resetSession_resume_quiet h st : quiet st (resetSession_resume h st).
Proof.
  unfold quiet, resetSession_resume. cbn [fst snd]. split.
  - paint. reflexivity.
  - apply refresh_starts_quiet.
Qed.

Lemma transcribe_catch_sending e st : sending (conv (transcribe_catch e st)) = sending (conv st).
Proof. reflexivity. Qed.

Lemma refreshCommitments_resume_sending o h st :
  sending (conv (refreshCommitments_resume o h st)) = sending (conv st).
Proof.
  assert (Hc : forall s, sending (conv (refreshCommitments_catch h s)) = sending (conv s)).
  { intros s. unfold refreshCommitments_catch. destruct (has_length _); [reflexivity|].
    rewrite conv_renderPromiseLedger. reflexivity. }
  unfold refreshCommitments_resume.
  destruct o as [e|[|] status [data|e]|ok prov st0|result]; try apply Hc.
  destruct (is_nullish data); [apply Hc|].
  match goal with |- context [renderPromiseLedger ?a ?b ?c ?d] =>
    pose proof (conv_renderPromiseLedger a b c d) as Hr;
    destruct (renderPromiseLedger a b c d) as [st' [err|]] end; cbn [fst] in Hr.
  - rewrite Hc, Hr. reflexivity.
  - rewrite Hr. reflexivity.
Qed.

Lemma refreshAlerts_resume_sending o st :
  sending (conv (refreshAlerts_resume o st)) = sending (conv st).
Proof.
  unfold refreshAlerts_resume.
  destruct o as [e|[|] status [data|e]|ok prov st0|result]; split_ifs; reflexivity.
Qed.

(** The guard of [sendCustomerMessage]: nothing happens, or a turn starts
    on a page that had none. *)
Lemma sendCustomerMessage_cases text channelOverride st :
  sendCustomerMessage text channelOverride st = (st, [])
  \/ (sending (conv st) = false /\
      sending (conv (fst (sendCustomerMessage text channelOverride st))) = true /\
      turns (snd (sendCustomerMessage text channelOverride st)) = 1%nat).
Proof.
  unfold sendCustomerMessage.
  destruct (str_eqb _ "") eqn:Hc; cbn [orb]; [left; reflexivity|].
  destruct (sending (conv st)) eqn:Hs; [left; reflexivity|].
  right. repeat split.
Qed.

(** When the message request settles the turn ends, unless the reply is
    to be spoken, which keeps it open. *)
Lemma sendCustomerMessage_resume_cases o h st :
  let r := sendCustomerMessage_resume o h st in
  (sending (conv (fst r)) = false /\ turns (snd r) = 0%nat)
  \/ (sending (conv (fst r)) = sending (conv st) /\ turns (snd r) = 1%nat).
Proof.
  cbn zeta. unfold sendCustomerMessage_resume.
  destruct (callCustomerMessageAPI_result o st) as [data|err]; [|left; split; reflexivity].
  destruct (is_nullish data); [left; split; reflexivity|].
  match goal with |- context [renderPromiseLedger ?a ?b ?c ?d] =>
    pose proof (conv_renderPromiseLedger a b c d) as Hr;
    destruct (renderPromiseLedger a b c d) as [st' [err|]] end; cbn [fst] in Hr;
    [left; split; reflexivity|].
  match goal with |- context [Mode_eqb ?m VoiceMode] => destruct (Mode_eqb m VoiceMode) end.
  - match goal with |- context [str_eqb ?c ""] => destruct (str_eqb c "") end.
    + left. split; [reflexivity|]. cbn [snd]. apply refresh_starts_quiet.
    + right. cbn [fst snd]. split.
      * unfold stopPlayback. paint. split_ifs; paint; rewrite Hr; paint; reflexivity.
      * rewrite turns_app, refresh_starts_quiet. reflexivity.
  - left. split; [reflexivity|]. cbn [snd]. apply refresh_starts_quiet.
Qed.

Lemma transcribe_after_fetch_cases o st :
  quiet st (transcribe_after_fetch o st)
  \/ (sending (conv st) = false /\
      sending (conv (fst (transcribe_after_fetch o st))) = true /\
      turns (snd (transcribe_after_fetch o st)) = 1%nat).
Proof.
  unfold transcribe_after_fetch.
  destruct o as [e|ok status [data|e]|ok0 prov st0|result];
    try (left; split; reflexivity).
  destruct (is_nullish data); [left; split; reflexivity|].
  destruct (negb ok || negb (truthy (prop data "ok"))); [left; split; reflexivity|].
  destruct (truthy (prop data "needs_confirmation")).
  - left. destruct (strict_eq_str _ _); split; cbn [fst snd]; try reflexivity.
    split_ifs; reflexivity.
  - destruct (prop data "text"); try (left; split; reflexivity).
    + match goal with |- context [sendCustomerMessage ?a ?b ?c] =>
        destruct (sendCustomerMessage_cases a b c) as [Hs|(H1 & H2 & H3)] end.
      * left. rewrite Hs. split; reflexivity.
      * right. repeat split; assumption.
    + match goal with |- context [sendCustomerMessage ?a ?b ?c] =>
        destruct (sendCustomerMessage_cases a b c) as [Hs|(H1 & H2 & H3)] end.
      * left. rewrite Hs. split; reflexivity.
      * right. repeat split; assumption.
    + match goal with |- context [sendCustomerMessage ?a ?b ?c] =>
        destruct (sendCustomerMessage_cases a b c) as [Hs|(H1 & H2 & H3)] end.
      * left. rewrite Hs. split; reflexivity.
      * right. repeat split; assumption.
Qed.

Lemma started_invariant w r rest (n : nat) :
  turns rest = n ->
  (n + turns (snd r))%nat = (if sending (conv (fst r)) then 1%nat else 0%nat) ->
  one_turn_invariant (started w r rest).
Proof.
  intros Hrest Hr. unfold one_turn_invariant, started. cbn [inflight wstate].
  rewrite turns_app, Hrest. exact Hr.
Qed.

Lemma quiet_invariant w r :
  one_turn_invariant w -> quiet (wstate w) r -> one_turn_invariant (started w r (inflight w)).
Proof.
  intros Hinv [Hs Ht]. apply (started_invariant w r (inflight w) _ eq_refl).
  rewrite Ht, Hs, Nat.add_0_r. exact Hinv.
Qed.

Lemma starting_invariant w r :
  one_turn_invariant w ->
  sending (conv (wstate w)) = false ->
  sending (conv (fst r)) = true -> turns (snd r) = 1%nat ->
  one_turn_invariant (started w r (inflight w)).
Proof.
  intros Hinv H0 H1 H2. apply (started_invariant w r (inflight w) _ eq_refl).
  unfold one_turn_invariant in Hinv. rewrite H0 in Hinv. rewrite Hinv, H1, H2. reflexivity.
Qed.

Lemma step_keeps_invariant e h w : one_turn_invariant w -> one_turn_invariant (step e h w).
Proof.
  intros Hinv. destruct e as [text ch|c| |m|blob mime|i o]; cbn [step].
  - destruct (sendCustomerMessage_cases text ch (wstate w)) as [Hs|(H0 & H1 & H2)].
    + rewrite Hs. apply quiet_invariant; [exact Hinv|split; reflexivity].
    + apply starting_invariant; assumption.
  - apply quiet_invariant; [exact Hinv|split; reflexivity].
  - apply quiet_invariant; [exact Hinv|]. split; [|reflexivity].
    unfold resetSession, stopVoiceInput, stopPlayback. cbn [fst].
    apply sending_resetVoiceButton.
  - apply quiet_invariant; [exact Hinv|]. split; [|reflexivity].
    cbn [fst]. apply sending_setMode.
  - apply quiet_invariant; [exact Hinv|]. unfold transcribeAndSend.
    destruct blob as [b|]; [destruct (Z.ltb (blob_size b) 300)|]; split; reflexivity.
  - destruct (inflight w !! i) as [p|] eqn:Hp; [|exact Hinv].
    pose proof (turns_delete (inflight w) i p Hp) as Hdel.
    unfold one_turn_invariant in Hinv. rewrite Hinv in Hdel.
    destruct p as [wt k]. unfold is_turn in Hdel. cbn [kont] in Hdel |- *.
    destruct k; cbn [resume].
    + (* the message request settles *)
      destruct (sending (conv (wstate w))) eqn:Hsend; [|discriminate Hdel].
      assert (Hrest : turns (delete i (inflight w)) = 0%nat) by lia.
      apply (started_invariant _ _ _ _ Hrest).
      destruct (sendCustomerMessage_resume_cases o h (wstate w)) as [[H1 H2]|[H1 H2]];
        rewrite H1, H2; [reflexivity|rewrite Hsend; reflexivity].
    + (* the spoken reply settles *)
      destruct (sending (conv (wstate w))) eqn:Hsend; [|discriminate Hdel].
      assert (Hrest : turns (delete i (inflight w)) = 0%nat) by lia.
      apply (started_invariant _ _ _ _ Hrest). reflexivity.
    + apply (started_invariant _ _ _ _ (eq_sym Hdel)).
      destruct (continueChannel_resume_quiet toChannel o (wstate w)) as [H1 H2].
      rewrite H1, H2. apply Nat.add_0_r.
    + apply (started_invariant _ _ _ _ (eq_sym Hdel)).
      destruct (resetSession_resume_quiet h (wstate w)) as [H1 H2].
      rewrite H1, H2. apply Nat.add_0_r.
    + apply (started_invariant _ _ _ _ (eq_sym Hdel)).
      unfold transcribe_after_read. destruct o; cbn [fst snd]; apply Nat.add_0_r.
    + destruct (transcribe_after_fetch_cases o (wstate w)) as [[H1 H2]|(H0 & H1 & H2)].
      * apply (started_invariant _ _ _ _ (eq_sym Hdel)). rewrite H1, H2. apply Nat.add_0_r.
      * rewrite H0 in Hdel. apply (started_invariant _ _ _ _ (eq_sym Hdel)).
        rewrite H1, H2. reflexivity.
    + apply (started_invariant _ _ _ _ (eq_sym Hdel)). apply Nat.add_0_r.
    + apply (started_invariant _ _ _ _ (eq_sym Hdel)). cbn [fst snd].
      rewrite refreshCommitments_resume_sending. apply Nat.add_0_r.
    + apply (started_invariant _ _ _ _ (eq_sym Hdel)). cbn [fst snd].
      rewrite refreshAlerts_resume_sending. apply Nat.add_0_r.
Qed.

Lemma reachable_invariant w : reachable w -> one_turn_invariant w.
Proof.
  induction 1 as [w Hs Ht|w e h _ IH].
  - unfold one_turn_invariant. rewrite Hs. exact Ht.
  - apply step_keeps_invariant. exact IH.
Qed.





(** * More properties of the page script *)

(** ** Speech errors and the tenant *)

(** Whatever error code the speech recogniser reports, the note shown is
    one of five fixed texts; the code itself is never shown, and the page
    state plays no part. *)
Theorem mapSpeechErrorToMessage_fixed_texts code st :
  In (mapSpeechErrorToMessage code st)
     ["Microphone permission is blocked. Allow microphone access and try again.";
      "I did not hear speech clearly. Please try again and speak a little closer to the microphone.";
      "Your microphone is not available right now. Check your device input and try again.";
      "Voice input had a connection problem. Please try again or type your question.";
      "Voice input is not available right now. You can type your question instead."].
Proof.
  unfold mapSpeechErrorToMessage.
  set (n := toLowerCase _).
  destruct (str_eqb n "not-allowed" || str_eqb n "service-not-allowed"); [left; reflexivity|].
  destruct (str_eqb n "no-speech"); [right; left; reflexivity|].
  destruct (str_eqb n "audio-capture"); [do 2 right; left; reflexivity|].
  destruct (str_eqb n "network"); [do 3 right; left; reflexivity|].
  do 4 right. left. reflexivity.
Qed.








(** The tenant of some paths, run by hand. *)
Example detectTenantFromPath_runs :
  detectTenantFromPath "/support/WestJet/chat" = "westjet" /\
  detectTenantFromPath "//support///Acme" = "acme" /\
  detectTenantFromPath "/support" = "flair" /\
  detectTenantFromPath "/demo/acme" = "flair" /\
  detectTenantFromPath "" = "flair".
Proof. vm_compute. repeat split; reflexivity. Qed.

(** ** The effort badge and the due line *)

(** Where the page has an effort badge, [applyEffortBadge] leaves it either
    hidden, with neither tone and no text, or shown with exactly one of the
    tones "fast" and "warn" and the text that goes with it. *)
Theorem applyEffortBadge_one_tone effort st old :
  effortBadge (page st) = Some old ->
  exists b, effortBadge (page (applyEffortBadge effort st)) = Some b /\
    (badge_hidden b = true ->
     badge_fast b = false /\ badge_warn b = false /\ badge_text b = "") /\
    (badge_hidden b = false ->
     badge_fast b = negb (badge_warn b) /\
     badge_text b = if badge_fast b then "Fast path active: shorter, lower-effort support"
                    else "Keeping this efficient").
Proof.
  intros Hold. unfold applyEffortBadge. rewrite Hold.
  match goal with |- context [if ?c then _ else _] => destruct c end.
  - eexists. split; [reflexivity|]. cbn. split; [auto|discriminate].
  - eexists. split; [reflexivity|]. cbn. split; [discriminate|].
    intros _. destruct (truthy (prop _ "fast_path_active")); split; reflexivity.
Qed.

Lemma applyEffortBadge_one_tone_witness :
  exists b,
    effortBadge (page (applyEffortBadge
                         (VObj [("level", VStr "High"); ("fast_path_active", VBool true)])
                         sample_state)) = Some b /\
    badge_hidden b = false /\ badge_fast b = true /\ badge_warn b = false.
Proof.
  destruct (applyEffortBadge_one_tone
              (VObj [("level", VStr "High"); ("fast_path_active", VBool true)])
              sample_state (MkBadge true false false "") eq_refl) as (b & Hb & _ & _).
  exists b. split; [exact Hb|].
  vm_compute in Hb. injection Hb as <-. repeat split.
Defined.

(** The number of hours shown is the distance to the due time rounded to
    the nearest hour: never negative, and never more than half an hour
    away from the true distance. *)
Theorem absHours_of_rounds ms :
  0 <= absHours_of ms /\
  Z.abs ms - 1800000 < 3600000 * absHours_of ms <= Z.abs ms + 1800000.
Proof.
  unfold absHours_of.
  pose proof (Z.abs_nonneg ms) as Habs.
  pose proof (Z.div_mod (Z.abs ms + 1800000) 3600000 ltac:(lia)) as Hdm.
  pose proof (Z.mod_pos_bound (Z.abs ms + 1800000) 3600000 ltac:(lia)) as Hmod.
  split.
  - apply Z.div_pos; lia.
  - lia.
Qed.

(** The due line of a ledger card is empty or one of five wordings; an
    hour count is only printed when it is at least 1 ("in ~Nh") or at
    least 2 ("overdue (Nh)"), so "0h" is never shown. *)
Theorem formatPromiseDue_wordings h item :
  let r := formatPromiseDue h item in
  r = "" \/
  r = "Follow-up may be overdue (about an hour)." \/
  (exists n, 2 <= n /\ r = "Follow-up may be overdue (" +:+ pretty n +:+ "h).") \/
  r = "Follow-up window reached." \/
  r = "Follow-up window later today." \/
  (exists n, 1 <= n /\ r = "Follow-up window in ~" +:+ pretty n +:+ "h.").
Proof.
  cbn zeta. unfold formatPromiseDue.
  destruct (negb (truthy item) || negb (typeof_object item)); [left; reflexivity|].
  destruct (if truthy (prop item "due_at") then Date_new h (prop item "due_at") else None)
    as [due|]; [|left; reflexivity].
  set (a := absHours_of (due - clock h)).
  destruct (str_eqb _ "overdue").
  - destruct (Z.leb a 1) eqn:Ha.
    + right. left. reflexivity.
    + right. right. left. exists a. apply Z.leb_gt in Ha. split; [lia|reflexivity].
  - destruct (Z.leb (due - clock h) 0); [do 3 right; left; reflexivity|].
    destruct (Z.ltb a 1) eqn:Ha; [do 4 right; left; reflexivity|].
    do 5 right. exists a. apply Z.ltb_ge in Ha. split; [lia|reflexivity].
Qed.

(** ** Reading a clip or a file as base 64 *)

Lemma after_comma_aux_no_comma whole s : has_char "," s = false -> after_comma_aux whole s = whole.
Proof.
  induction s as [|c s IH]; cbn; [reflexivity|].
  destruct (Ascii.eqb c ","); cbn; [discriminate|exact IH].
Qed.

Lemma after_comma_aux_split whole prefix payload :
  has_char "," prefix = false ->
  after_comma_aux whole (prefix +:+ String ","%char payload) = payload.
Proof.
  induction prefix as [|c p IH]; intros H.
  - reflexivity.
  - change (String c p +:+ String "," payload) with (String c (p +:+ String "," payload)).
    cbn in H |- *. destruct (Ascii.eqb c ","); [discriminate H|]. apply IH. exact H.
Qed.

(** From a data URL ("data:audio/webm;base64," and then the payload) the
    part after the first comma is kept, which is the payload whenever the
    header has no comma; a text without a comma is kept whole. *)
Theorem after_comma_keeps_payload prefix payload :
  has_char "," prefix = false ->
  after_comma (prefix +:+ String ","%char payload) = payload /\
  after_comma prefix = prefix.
Proof.
  intros H. unfold after_comma. split.
  - apply after_comma_aux_split. exact H.
  - apply after_comma_aux_no_comma. exact H.
Qed.

Lemma after_comma_keeps_payload_witness :
  after_comma ("data:audio/webm;base64" +:+ String ","%char "GkXfo59ChoEB,Qg==")
  = "GkXfo59ChoEB,Qg==".
Proof.
  apply (after_comma_keeps_payload "data:audio/webm;base64" "GkXfo59ChoEB,Qg==").
  reflexivity.
Defined.

(** ** The meta block of an agent message *)

Lemma underscores_to_spaces_clean s : has_char "_" (underscores_to_spaces s) = false.
Proof.
  induction s as [|c s IH]; cbn; [reflexivity|]. rewrite IH.
  destruct (Ascii.eqb c "_") eqn:E; [reflexivity|]. rewrite E. reflexivity.
Qed.

Lemma action_chip_clean actRaw : has_char "_" (node_text (action_chip actRaw)) = false.
Proof.
  unfold action_chip. destruct (is_mapped _); cbn; apply underscores_to_spaces_clean.
Qed.

(** Below an agent message there is at most one row of action chips, it
    holds at most six chips however many next actions the response lists,
    and no chip shows an underscore. *)
Theorem message_meta_chips role payload :
  (List.length (fst (message_meta role payload)) <= 1)%nat /\
  Forall (fun row => (List.length (node_kids row) <= 6)%nat /\
                     Forall (fun chip => has_char "_" (node_text chip) = false) (node_kids row))
         (fst (message_meta role payload)).
Proof.
  unfold message_meta. destruct (str_eqb role "agent" && truthy payload); cbn [fst].
  - unfold action_row. destruct (_ && _); cbn [List.length]; split; try lia; [|constructor].
    constructor; [|constructor]. cbn [node_kids]. split.
    + rewrite length_map. apply firstn_le_length.
    + apply Forall_map. apply Forall_forall. intros x _. apply action_chip_clean.
  - split; [cbn; lia|constructor].
Qed.





(** A response with seven next actions and a repeated link, run by hand. *)
Example message_meta_runs :
  let payload :=
    VObj [("next_actions",
           VArr [VStr "submit_refund"; VStr "track_my_bag"; VNull; VStr "a"; VStr "b"; VStr "c";
                 VStr "seventh"]);
          ("self_service_options",
           VArr [VObj [("url", VStr "https://x/help"); ("label", VStr "Help")];
                 VObj [("url", VStr "https://x/help")]]);
          ("official_next_steps", VArr [VObj [("source_url", VStr "https://x/help")]]);
          ("citations", VArr [VObj [("source_url", VStr "https://x/cite")]])] in
  message_meta "agent" payload
  = ([El "div" "chip-row" ""
        [El "button" "chip action-btn" "submit refund" []; El "span" "chip" "track my bag" [];
         El "span" "chip" "" []; El "span" "chip" "a" []; El "span" "chip" "b" [];
         El "span" "chip" "c" []]],
     [MkLink (VStr "Help") (VStr "https://x/help")]).
Proof. vm_compute. reflexivity. Qed.

(** ** Collapsible panels *)

(** After a toggle the body is hidden exactly when the button says it is
    not expanded, whatever the two were before, and two more toggles bring
    the panel back to where it is. *)
Theorem toggleCollapse_consistent p :
  let q := toggleCollapse p in
  aria_expanded q = Some (if body_hidden q then "false" else "true") /\
  body_hidden (toggleCollapse q) = negb (body_hidden q) /\
  toggleCollapse (toggleCollapse q) = q.
Proof.
  cbn zeta. unfold toggleCollapse. destruct p as [[a|] hid]; cbn.
  - destruct (str_eqb a "true"); cbn; repeat split.
  - repeat split.
Qed.

(** ** What the ledger panel holds *)

Lemma append_cards_leading h items sofar :
  exists err,
    append_cards h items sofar = ((sofar ++ map (promise_card h) (leading items))%list, err) /\
    (err = None <-> forallb (fun i => negb (is_nullish i)) items = true).
Proof.
  revert sofar. induction items as [|item rest IH]; intros sofar; cbn.
  - exists None. rewrite app_nil_r. split; [reflexivity|split; reflexivity].
  - destruct (is_nullish item) eqn:E; cbn.
    + eexists. rewrite app_nil_r. split; [reflexivity|]. split; discriminate.
    + destruct (IH (sofar ++ [promise_card h item])%list) as (err & H & Hf).
      exists err. rewrite H, <- app_assoc. split; [reflexivity|exact Hf].
Qed.

(** Drawing the ledger replaces what the panel held: for a list that is not
    empty the panel then holds exactly the cards of the first six items, in
    order, up to the first item that is [null] or [undefined]; the call
    throws exactly when there is such an item among the first six. *)
Theorem renderPromiseLedger_cards h xs effort st old :
  promiseList (page st) = Some old ->
  xs <> [] ->
  let r := renderPromiseLedger h (VArr xs) effort st in
  promiseList (page (fst r)) = Some (map (promise_card h) (leading (firstn 6 xs))) /\
  (snd r = None <-> forallb (fun i => negb (is_nullish i)) (firstn 6 xs) = true).
Proof.
  intros Hold Hne. cbn zeta. unfold renderPromiseLedger. rewrite Hold.
  cbn [isArray elements]. destruct xs as [|x xs']; [contradiction|].
  destruct (append_cards_leading h (firstn 6 (x :: xs')) []) as (err & H & Hf).
  rewrite H. cbn [fst snd]. split; [reflexivity|exact Hf].
Qed.

Lemma renderPromiseLedger_cards_witness :
  promiseList (page (fst (renderPromiseLedger (host_at 1772373600000)
                            (VArr [sample_commitment; VNull; sample_commitment]) VNull
                            sample_state)))
  = Some [promise_card (host_at 1772373600000) sample_commitment].
Proof.
  apply (renderPromiseLedger_cards (host_at 1772373600000)
           [sample_commitment; VNull; sample_commitment] VNull sample_state []).
  - reflexivity.
  - discriminate.
Defined.

(** For anything that is not a list, and for the empty list, the panel
    holds the one line that explains what it is for, and no card; nothing
    is thrown. *)
Theorem renderPromiseLedger_placeholder h items effort st old :
  promiseList (page st) = Some old ->
  from_array items = [] ->
  let r := renderPromiseLedger h items effort st in
  promiseList (page (fst r)) = Some [El "div" "muted" empty_ledger_text []] /\
  ledger_cards (fst r) = [] /\ snd r = None.
Proof.
  intros Hold Hempty. cbn zeta. unfold renderPromiseLedger. rewrite Hold.
  unfold from_array in Hempty. rewrite Hempty. cbn [fst snd]. repeat split.
Qed.

Lemma renderPromiseLedger_placeholder_witness :
  ledger_cards (fst (renderPromiseLedger (host_at 0) (VStr "not a list") VNull sample_state)) = [].
Proof.
  apply (renderPromiseLedger_placeholder (host_at 0) (VStr "not a list") VNull sample_state []);
    reflexivity.
Defined.

(** ** Sending a message *)







(** ** What the event handlers leave alone *)

Lemma page_applyEffortBadge e st :
  exists eb, page (applyEffortBadge e st) = page (set_effortBadge eb st).
Proof.
  unfold applyEffortBadge. destruct (effortBadge (page st)) as [b|] eqn:E.
  - match goal with |- context [if ?c then _ else _] => destruct c end; eexists; reflexivity.
  - exists None. destruct st as [c v [? ? ? ? ? ? eb ? ? ? ?]]. cbn in E. subst. reflexivity.
Qed.

Lemma transcript_applyEffortBadge e st :
  transcript (page (applyEffortBadge e st)) = transcript (page st).
Proof. destruct (page_applyEffortBadge e st) as [eb ->]. reflexivity. Qed.

Lemma btn_applyEffortBadge e st :
  sendBtnDisabled (page (applyEffortBadge e st)) = sendBtnDisabled (page st).
Proof. destruct (page_applyEffortBadge e st) as [eb ->]. reflexivity. Qed.

Lemma transcript_renderPromiseLedger h items effort st :
  transcript (page (fst (renderPromiseLedger h items effort st))) = transcript (page st).
Proof.
  unfold renderPromiseLedger. destruct (promiseList (page st)); [|reflexivity].
  destruct (if isArray items then elements items else []); [|destruct (append_cards _ _ _)];
    cbn [fst]; unfold set_promiseList at 1; cbn [page on_page transcript];
    rewrite transcript_applyEffortBadge; reflexivity.
Qed.

Lemma btn_renderPromiseLedger h items effort st :
  sendBtnDisabled (page (fst (renderPromiseLedger h items effort st)))
  = sendBtnDisabled (page st).
Proof.
  unfold renderPromiseLedger. destruct (promiseList (page st)); [|reflexivity].
  destruct (if isArray items then elements items else []); [|destruct (append_cards _ _ _)];
    cbn [fst]; unfold set_promiseList at 1; cbn [page on_page sendBtnDisabled];
    rewrite btn_applyEffortBadge; reflexivity.
Qed.

Lemma transcript_renderCustomerPlan plan st :
  transcript (page (renderCustomerPlan plan st)) = transcript (page st).
Proof.
  unfold renderCustomerPlan. destruct (_ || _); rewrite transcript_applyEffortBadge; reflexivity.
Qed.

Lemma btn_renderCustomerPlan plan st :
  sendBtnDisabled (page (renderCustomerPlan plan st)) = sendBtnDisabled (page st).
Proof.
  unfold renderCustomerPlan. destruct (_ || _); rewrite btn_applyEffortBadge; reflexivity.
Qed.

Create Rewrite HintDb chrome.
#[local] Hint Rewrite transcript_applyEffortBadge btn_applyEffortBadge
  transcript_renderPromiseLedger btn_renderPromiseLedger
  transcript_renderCustomerPlan btn_renderCustomerPlan : chrome.

(** Read a field of the state through everything that does not assign it. *)
Ltac chrome :=
  repeat first
    [ progress (unfold_setters;
                unfold setStatus, addSystemNote, appendMessage, removeTypingIndicator,
                  addTypingIndicator, renderResolutionArtifacts, renderAlerts, renderTechnical,
                  stopPlayback, send_finally, send_catch, transcribe_catch in *;
                unfold_setters;
                cbn [cfg conv page on_conv on_page mode sessionId sending listening
                     lastResponse promiseLedger customerEffort voiceRetries
                     pendingTranscript voiceBackend_stt voiceBackend_tts lastAlerts
                     transcript statusLine inputValue sendBtnDisabled voiceHint
                     promiseList effortBadge technicalPre planPanel resolutionPanel
                     alertsPanel fst snd])
    | progress autorewrite with paint chrome ].

Ltac frame_tac :=
  unfold frame; repeat split; chrome; split_ifs; chrome; reflexivity.

Lemma frame_refl st : frame st st.
Proof. repeat split. Qed.

Lemma frame_resetVoiceButton st : frame st (resetVoiceButton st).
Proof. unfold resetVoiceButton. frame_tac. Qed.

Lemma frame_setMode m st : frame st (setMode m st).
Proof.
  unfold setMode, stopVoiceInput. destruct (str_eqb m "voice"); [frame_tac|].
  destruct (frame_resetVoiceButton
              (setStatus "Text mode." (set_mode TextMode st))) as (H1 & H2 & H3).
  unfold frame. chrome. rewrite H1, H2, H3. chrome. repeat split.
Qed.

Lemma frame_continueChannel_catch c st : frame st (continueChannel_catch c st).
Proof. unfold continueChannel_catch. frame_tac. Qed.

Lemma frame_continueChannel_resume c o st : frame st (fst (continueChannel_resume c o st)).
Proof.
  unfold continueChannel_resume.
  destruct o as [e|[|] status [data|e]|ok prov st0|result]; cbn [fst];
    try apply frame_continueChannel_catch.
  destruct (is_nullish data); cbn [fst]; [apply frame_continueChannel_catch|].
  frame_tac.
Qed.

Lemma frame_transcribeAndSend blob mime st : frame st (fst (transcribeAndSend blob mime st)).
Proof.
  unfold transcribeAndSend. destruct blob as [b|]; [destruct (Z.ltb (blob_size b) 300)|];
    cbn [fst]; frame_tac.
Qed.

Lemma frame_transcribe_after_read mime o st : frame st (fst (transcribe_after_read mime o st)).
Proof. unfold transcribe_after_read. destruct o; cbn [fst]; frame_tac. Qed.

Lemma frame_refreshCommitments_resume o h st : frame st (refreshCommitments_resume o h st).
Proof.
  assert (Hc : forall s, frame s (refreshCommitments_catch h s)).
  { intros s. unfold refreshCommitments_catch. destruct (has_length _); frame_tac. }
  unfold refreshCommitments_resume.
  destruct o as [e|[|] status [data|e]|ok prov st0|result]; try apply Hc.
  destruct (is_nullish data); [apply Hc|].
  match goal with |- context [renderPromiseLedger ?a ?b ?c ?d] =>
    pose proof (conv_renderPromiseLedger a b c d) as Hr;
    pose proof (btn_renderPromiseLedger a b c d) as Hb;
    destruct (renderPromiseLedger a b c d) as [st' [err|]] end; cbn [fst] in Hr, Hb.
  - destruct (Hc st') as (H1 & H2 & H3). unfold frame. rewrite H1, H2, H3, Hr, Hb.
    chrome. repeat split.
  - unfold frame. rewrite Hr, Hb. chrome. repeat split.
Qed.

Lemma frame_refreshAlerts_resume o st : frame st (refreshAlerts_resume o st).
Proof.
  unfold refreshAlerts_resume.
  destruct o as [e|[|] status [data|e]|ok prov st0|result]; frame_tac.
Qed.

Lemma frame_in_step st st' : frame st st' -> in_step st st'.
Proof. intros (H1 & H2 & H3). split; [exact H1|]. right. right. split; assumption. Qed.

Lemma in_step_sendCustomerMessage text ch st :
  in_step st (fst (sendCustomerMessage text ch st)).
Proof.
  unfold sendCustomerMessage.
  destruct (str_eqb _ "" || sending (conv st)); cbn [fst].
  - apply frame_in_step, frame_refl.
  - split; [destruct text; reflexivity|]. right. left. split; reflexivity.
Qed.

Lemma in_step_sendCustomerMessage_resume o h st :
  in_step st (fst (sendCustomerMessage_resume o h st)).
Proof.
  unfold sendCustomerMessage_resume.
  destruct (callCustomerMessageAPI_result o st) as [data|err];
    [|split; [reflexivity|left; split; reflexivity]].
  destruct (is_nullish data); [split; [reflexivity|left; split; reflexivity]|].
  match goal with |- context [renderPromiseLedger ?a ?b ?c ?d] =>
    pose proof (conv_renderPromiseLedger a b c d) as Hr;
    pose proof (btn_renderPromiseLedger a b c d) as Hb;
    destruct (renderPromiseLedger a b c d) as [st' [err|]] end; cbn [fst] in Hr, Hb.
  - split; [|left; split; reflexivity]. chrome. rewrite Hr. chrome. reflexivity.
  - assert (Hsid : sessionId (conv st') = sessionId (conv st)).
    { rewrite Hr. chrome. reflexivity. }
    match goal with |- context [Mode_eqb ?m VoiceMode] => destruct (Mode_eqb m VoiceMode) end.
    + match goal with |- context [str_eqb ?c ""] => destruct (str_eqb c "") end; cbn [fst].
      * split; [|left; split; reflexivity]. chrome. split_ifs; chrome; exact Hsid.
      * split; [chrome; split_ifs; chrome; exact Hsid|]. right. right.
        split; chrome; split_ifs; chrome; rewrite ?Hr, ?Hb; chrome; reflexivity.
    + cbn [fst]. split; [|left; split; reflexivity]. chrome. split_ifs; chrome; exact Hsid.
Qed.

Lemma in_step_transcribe_after_fetch o st : in_step st (fst (transcribe_after_fetch o st)).
Proof.
  unfold transcribe_after_fetch.
  destruct o as [e|ok status [data|e]|ok0 prov st0|result]; cbn [fst];
    try (apply frame_in_step; frame_tac).
  destruct (is_nullish data); [apply frame_in_step; frame_tac|].
  destruct (negb ok || negb (truthy (prop data "ok"))); [apply frame_in_step; frame_tac|].
  destruct (truthy (prop data "needs_confirmation")).
  - apply frame_in_step. destruct (strict_eq_str _ _); cbn [fst]; frame_tac.
  - destruct (prop data "text"); try (apply frame_in_step; frame_tac).
    + match goal with |- context [sendCustomerMessage ?a ?b ?c] =>
        destruct (in_step_sendCustomerMessage a b c) as [H1 H2] end.
      split; [rewrite H1; chrome; reflexivity|].
      destruct H2 as [[H2 H3]|[[H2 H3]|[H2 H3]]]; [left|right; left|right; right];
        rewrite H2, H3; chrome; split; reflexivity.
    + match goal with |- context [sendCustomerMessage ?a ?b ?c] =>
        destruct (in_step_sendCustomerMessage a b c) as [H1 H2] end.
      split; [rewrite H1; chrome; reflexivity|].
      destruct H2 as [[H2 H3]|[[H2 H3]|[H2 H3]]]; [left|right; left|right; right];
        rewrite H2, H3; chrome; split; reflexivity.
    + match goal with |- context [sendCustomerMessage ?a ?b ?c] =>
        destruct (in_step_sendCustomerMessage a b c) as [H1 H2] end.
      split; [rewrite H1; chrome; reflexivity|].
      destruct H2 as [[H2 H3]|[[H2 H3]|[H2 H3]]]; [left|right; left|right; right];
        rewrite H2, H3; chrome; split; reflexivity.
Qed.

Lemma resetSession_resume_keeps_lock h st :
  sending (conv (fst (resetSession_resume h st))) = sending (conv st) /\
  sendBtnDisabled (page (fst (resetSession_resume h st))) = sendBtnDisabled (page st).
Proof. unfold resetSession_resume. split; chrome; reflexivity. Qed.

Lemma in_step_step e h w :
  settles_reset e w = false -> in_step (wstate w) (wstate (step e h w)).
Proof.
  intros Hr. destruct e as [text ch|c| |m|blob mime|i o]; cbn [step started wstate].
  - apply in_step_sendCustomerMessage.
  - apply frame_in_step, frame_refl.
  - apply frame_in_step. unfold resetSession, stopVoiceInput, stopPlayback. cbn [fst].
    apply frame_resetVoiceButton.
  - apply frame_in_step. cbn [fst]. apply frame_setMode.
  - apply frame_in_step, frame_transcribeAndSend.
  - cbn [settles_reset] in Hr.
    destruct (inflight w !! i) as [[wt k]|]; [|apply frame_in_step, frame_refl].
    cbn [kont] in Hr |- *. cbn [started wstate].
    destruct k; cbn [resume fst]; try discriminate Hr.
    + apply in_step_sendCustomerMessage_resume.
    + unfold sendCustomerMessage_after_speak, speak_resume.
      split; [|left; split; reflexivity].
      chrome. destruct o as [e|ok status body|[] prov []|result]; split_ifs; chrome; reflexivity.
    + apply frame_in_step, frame_continueChannel_resume.
    + apply frame_in_step, frame_transcribe_after_read.
    + apply in_step_transcribe_after_fetch.
    + apply frame_in_step, frame_refl.
    + apply frame_in_step, frame_refreshCommitments_resume.
    + apply frame_in_step, frame_refreshAlerts_resume.
Qed.

(** ** The session id, the sending flag and the send button *)

(** Only the local reset changes the session id: every other event (a
    message sent or answered, a channel continued, a clip transcribed, a
    refresh settled, the mode switched) leaves it as it is. *)
Theorem session_id_changes_only_on_reset e h w :
  settles_reset e w = false ->
  sessionId (conv (wstate (step e h w))) = sessionId (conv (wstate w)).
Proof. intros Hr. apply (in_step_step e h w Hr). Qed.

Lemma session_id_changes_only_on_reset_witness :
  sessionId (conv (wstate (step (EvSettle 0
                                   (Fetched true 200
                                      (Json (VObj [("session_id", VStr "sess-other")]))))
                                (host_at 0) world_with_turn_in_flight)))
  = sessionId (conv (wstate world_with_turn_in_flight)).
Proof.
  apply (session_id_changes_only_on_reset
           (EvSettle 0 (Fetched true 200 (Json (VObj [("session_id", VStr "sess-other")]))))
           (host_at 0) world_with_turn_in_flight).
  reflexivity.
Defined.

Lemma step_keeps_button e h w :
  button_tracks_sending (wstate w) -> button_tracks_sending (wstate (step e h w)).
Proof.
  unfold button_tracks_sending. intros Hb.
  destruct (settles_reset e w) eqn:Hr.
  - destruct e as [text ch|c| |m|blob mime|i o]; try discriminate Hr.
    cbn [settles_reset] in Hr. cbn [step].
    destruct (inflight w !! i) as [[wt k]|]; [|discriminate Hr].
    cbn [kont] in Hr |- *. destruct k; try discriminate Hr.
    cbn [started wstate resume fst].
    destruct (resetSession_resume_keeps_lock h (wstate w)) as [H1 H2].
    rewrite H1, H2. exact Hb.
  - destruct (in_step_step e h w Hr) as [_ [[H1 H2]|[[H1 H2]|[H1 H2]]]];
      rewrite H1, H2; [reflexivity|reflexivity|exact Hb].
Qed.

Lemma run_keeps_button es w :
  button_tracks_sending (wstate w) -> button_tracks_sending (wstate (run es w)).
Proof.
  revert w. induction es as [|[e h] es IH]; intros w Hb; cbn [run].
  - exact Hb.
  - apply IH. apply step_keeps_button. exact Hb.
Qed.

Lemma reachable_run es w : reachable w -> reachable (run es w).
Proof.
  revert w. induction es as [|[e h] es IH]; intros w Hr; cbn [run].
  - exact Hr.
  - apply IH. apply reachable_step. exact Hr.
Qed.

(** From a page at rest (nothing being sent, send button enabled, no turn
    awaited), after any events with any outcomes: the send button is
    disabled exactly while [state.sending] is set, and it is disabled
    exactly while one turn is awaited.  So the button is never left
    disabled with nothing on its way that would enable it again. *)
Theorem send_button_disabled_exactly_during_turn es w :
  sending (conv (wstate w)) = false ->
  sendBtnDisabled (page (wstate w)) = false ->
  turns_in_flight w = 0%nat ->
  sendBtnDisabled (page (wstate (run es w))) = sending (conv (wstate (run es w))) /\
  turns_in_flight (run es w)
  = if sendBtnDisabled (page (wstate (run es w))) then 1%nat else 0%nat.
Proof.
  intros Hs Hb Ht.
  assert (Hbtn : button_tracks_sending (wstate (run es w))).
  { apply run_keeps_button. unfold button_tracks_sending. rewrite Hs, Hb. reflexivity. }
  split; [exact Hbtn|].
  unfold button_tracks_sending in Hbtn. rewrite Hbtn.
  apply (reachable_invariant (run es w)).
  apply reachable_run. apply reachable_idle; assumption.
Qed.

Lemma send_button_disabled_exactly_during_turn_witness :
  let es := [(EvSend (Some "Where is my bag?") None, host_at 0);
             (EvReset, host_at 0);
             (EvSettle 1 (Rejected (MkErr "TypeError" "Failed to fetch")), host_at 0)] in
  let w := MkWorld sample_state [] [] in
  sendBtnDisabled (page (wstate (run es w))) = sending (conv (wstate (run es w))) /\
  turns_in_flight (run es w)
  = if sendBtnDisabled (page (wstate (run es w))) then 1%nat else 0%nat.
Proof.
  intros es w.
  apply (send_button_disabled_exactly_during_turn es w); reflexivity.
Defined.

(** ** A turn, from the request to the reply *)


Lemma no_typing_after_remove l :
  existsb is_typing (List.filter (fun e => negb (is_typing e)) l) = false.
Proof.
  induction l as [|e l IH]; [reflexivity|]. destruct e; cbn; exact IH.
Qed.

Lemma no_typing_send_catch err st :
  existsb is_typing (transcript (page (send_finally (send_catch err st)))) = false.
Proof. chrome. rewrite existsb_app, no_typing_after_remove. reflexivity. Qed.

Lemma no_typing_when_settled o h st :
  existsb is_typing (transcript (page (fst (sendCustomerMessage_resume o h st)))) = false.
Proof.
  unfold sendCustomerMessage_resume.
  destruct (callCustomerMessageAPI_result o st) as [data|err]; [|apply no_typing_send_catch].
  destruct (is_nullish data); [apply no_typing_send_catch|].
  match goal with |- context [renderPromiseLedger ?a ?b ?c ?d] =>
    pose proof (transcript_renderPromiseLedger a b c d) as Ht;
    destruct (renderPromiseLedger a b c d) as [st' [err|]] end; cbn [fst] in Ht.
  - apply no_typing_send_catch.
  - assert (Hq : existsb is_typing (transcript (page st')) = false).
    { rewrite Ht. chrome. rewrite existsb_app, no_typing_after_remove. reflexivity. }
    split_ifs; cbn [fst]; chrome; rewrite ?existsb_app, ?Hq; reflexivity.
Qed.

(** ** Voice transcripts *)

(** A transcript of what was heard is sent on as a message only when the
    transcription came back with a success status and [ok], does not ask
    for confirmation, and no message is being sent already; what is then
    issued is one message request on the voice channel.  In every other
    case nothing is requested. *)
Theorem transcript_sent_only_when_confirmed o st :
  snd (transcribe_after_fetch o st) <> [] ->
  exists status data rq,
    o = Fetched true status (Json data) /\
    truthy (prop data "ok") = true /\
    truthy (prop data "needs_confirmation") = false /\
    sending (conv st) = false /\
    snd (transcribe_after_fetch o st) = [MkPending (Net rq) K_message] /\
    prop (payload rq) "channel" = VStr "voice".
Proof.
  unfold transcribe_after_fetch.
  destruct o as [e|ok status [data|e]|ok0 prov st0|result]; cbn [snd];
    try (intros H; exfalso; apply H; reflexivity).
  destruct (is_nullish data); [intros H; exfalso; apply H; reflexivity|].
  destruct ok; cbn [negb orb]; [|intros H; exfalso; apply H; reflexivity].
  destruct (truthy (prop data "ok")) eqn:Hok; cbn [negb];
    [|intros H; exfalso; apply H; reflexivity].
  destruct (truthy (prop data "needs_confirmation")) eqn:Hconf.
  { destruct (strict_eq_str _ _); intros H; exfalso; apply H; reflexivity. }
  assert (Hsend : forall text st1,
             sending (conv st1) = sending (conv st) ->
             snd (sendCustomerMessage text (Some "voice") st1) <> [] ->
             exists rq, sending (conv st) = false /\
                        snd (sendCustomerMessage text (Some "voice") st1)
                        = [MkPending (Net rq) K_message] /\
                        prop (payload rq) "channel" = VStr "voice").
  { intros text st1 Hs1. unfold sendCustomerMessage. rewrite Hs1.
    destruct (str_eqb _ ""); cbn [orb snd]; [intros H; exfalso; apply H; reflexivity|].
    destruct (sending (conv st)); cbn [snd]; [intros H; exfalso; apply H; reflexivity|].
    intros _. eexists. split; [reflexivity|]. split; reflexivity. }
  destruct (prop data "text") eqn:Et; cbn [snd];
    try (intros H; exfalso; apply H; reflexivity);
    intros H; apply Hsend in H; try reflexivity;
    destruct H as (rq & H1 & H2 & H3); exists status, data, rq; repeat split; try assumption; reflexivity.
Qed.

Lemma transcript_sent_only_when_confirmed_witness :
  exists rq,
    snd (transcribe_after_fetch
           (Fetched true 200 (Json (VObj [("ok", VBool true); ("text", VStr "Where is my bag?")])))
           sample_state)
    = [MkPending (Net rq) K_message] /\
    prop (payload rq) "channel" = VStr "voice".
Proof.
  destruct (transcript_sent_only_when_confirmed
              (Fetched true 200 (Json (VObj [("ok", VBool true); ("text", VStr "Where is my bag?")])))
              sample_state)
    as (status & data & rq & _ & _ & _ & _ & H5 & H6);
    [vm_compute; discriminate|].
  exists rq. split; assumption.
Defined.

(** ** Every request is answered with a note *)

(** Whatever becomes of the continue-channel request, the customer is told:
    one or two system notes are added after what the transcript held, and
    nothing else on the page's conversation state changes. *)
Theorem continueChannel_always_answers toChannel o st :
  exists notes,
    transcript (page (fst (continueChannel_resume toChannel o st)))
    = (transcript (page st) ++ map SystemNote notes)%list /\
    (1 <= List.length notes <= 2)%nat /\
    conv (fst (continueChannel_resume toChannel o st)) = conv st.
Proof.
  assert (Hcatch : exists note,
             transcript (page (continueChannel_catch toChannel st))
             = (transcript (page st) ++ [SystemNote note])%list /\
             conv (continueChannel_catch toChannel st) = conv st).
  { unfold continueChannel_catch. split_ifs; eexists; split; reflexivity. }
  assert (Hfail : exists notes,
             transcript (page (fst (continueChannel_catch toChannel st, @nil Pending)))
             = (transcript (page st) ++ map SystemNote notes)%list /\
             (1 <= List.length notes <= 2)%nat /\
             conv (fst (continueChannel_catch toChannel st, @nil Pending)) = conv st).
  { destruct Hcatch as (note & H1 & H2). exists [note]. cbn [fst map List.length].
    split; [exact H1|]. split; [lia|exact H2]. }
  unfold continueChannel_resume.
  destruct o as [e|[|] status [data|e]|ok0 prov st0|result]; try exact Hfail.
  destruct (is_nullish data); [exact Hfail|]. cbn [fst].
  destruct (decide (toChannel = "phone")) as [->|Hp].
  - change (str_eqb "phone" "sms") with false. cbn [andb].
    destruct (str_eqb "phone" "phone" && truthy (prop data "phone_number")).
    + eexists [_; _]. cbn [map List.length]. chrome. rewrite <- app_assoc.
      split; [reflexivity|]. split; [lia|reflexivity].
    + eexists [_]. cbn [map List.length]. chrome.
      split; [reflexivity|]. split; [lia|reflexivity].
  - assert (Hb : str_eqb toChannel "phone" = false) by (apply bool_decide_eq_false_2; exact Hp).
    rewrite Hb. cbn [andb].
    destruct (str_eqb toChannel "sms" && truthy (prop data "sms_preview")).
    + eexists [_; _]. cbn [map List.length]. chrome. rewrite <- app_assoc.
      split; [reflexivity|]. split; [lia|reflexivity].
    + eexists [_]. cbn [map List.length]. chrome.
      split; [reflexivity|]. split; [lia|reflexivity].
Qed.

(** Whatever becomes of the follow-up summary request (prepared, not yet
    available, an error status, an unreadable body, no connection), exactly
    one system note is added to the transcript and the conversation state
    is left as it is. *)
Theorem sendFollowUpSummary_always_answers o st :
  exists note,
    transcript (page (fst (sendFollowUpSummary_resume o st)))
    = (transcript (page st) ++ [SystemNote note])%list /\
    conv (fst (sendFollowUpSummary_resume o st)) = conv st.
Proof.
  unfold sendFollowUpSummary_resume, summary_catch.
  destruct o as [e|[|] status [data|e]|ok0 prov st0|result]; cbn [fst];
    try (eexists; split; reflexivity).
  split_ifs; cbn [fst]; eexists; split; reflexivity.
Qed.

(** Whatever becomes of the upload analysis, exactly one system note is
    added to the transcript; the conversation state is left as it is, and
    the composer is only filled when the analysis went through. *)
Theorem upload_always_answers o st :
  exists note,
    transcript (page (upload_after_fetch o st))
    = (transcript (page st) ++ [SystemNote note])%list /\
    conv (upload_after_fetch o st) = conv st /\
    (statusLine (page (upload_after_fetch o st)) = "Upload analysis failed." ->
     inputValue (page (upload_after_fetch o st)) = inputValue (page st)).
Proof.
  unfold upload_after_fetch, upload_catch.
  destruct o as [e|ok status [data|e]|ok0 prov st0|result];
    try (eexists; split; [reflexivity|split; reflexivity]).
  split_ifs; eexists; (split; [reflexivity|split; [reflexivity|]]);
    try reflexivity; chrome; intros H; discriminate H.
Qed.

(** ** Branding *)

Lemma or_else_truthy a b : truthy b = true -> truthy (or_else a b) = true.
Proof. intros H. unfold or_else. destruct (truthy a) eqn:E; [exact E|exact H]. Qed.

Lemma or_else_null a : or_else a VNull = VNull \/ truthy (or_else a VNull) = true.
Proof. unfold or_else. destruct (truthy a) eqn:E; [right; exact E|left; reflexivity]. Qed.

(** Whatever the capabilities hold, also nothing at all, [applyBranding]
    leaves a brand with a name that is not empty, and a call-center number
    that is either [null] or a value that counts as present: so once the
    capabilities are loaded the fallback names of the notes are never
    used. *)
Theorem applyBranding_names_the_brand capData st :
  truthy (brand_name (cfg (applyBranding capData st))) = true /\
  (brand_callCenterPhone (cfg (applyBranding capData st)) = VNull \/
   truthy (brand_callCenterPhone (cfg (applyBranding capData st))) = true) /\
  conv (applyBranding capData st) = conv st /\
  page (applyBranding capData st) = page st.
Proof.
  unfold applyBranding. cbn [cfg brand_name brand_callCenterPhone conv page].
  split; [|split; [apply or_else_null|split; reflexivity]].
  apply or_else_truthy, or_else_truthy. reflexivity.
Qed.

Lemma phone_fallback_note_names_phone p st :
  brand_callCenterPhone (cfg st) = VStr p -> p <> "" ->
  includes p (phone_fallback_note st) = true.
Proof.
  intros Hp Hne. unfold phone_fallback_note. rewrite Hp.
  assert (Ht : or_else (VStr p) (VStr "the official support number") = VStr p).
  { unfold or_else, truthy, str_eqb. rewrite bool_decide_eq_false_2 by exact Hne. reflexivity. }
  rewrite Ht. cbn [String_].
  do 3 apply includes_skip. apply includes_here.
Qed.

(** When the capabilities carry a call-center number, every later failure
    of a continuation to the phone channel shows that number: loading the
    branding and the [catch] block of [continueChannel] fit together. *)
Theorem applyBranding_publishes_phone capData p o st :
  prop (or_else (opt_prop capData "support_contact") (VObj [])) "call_center_phone" = VStr p ->
  p <> "" ->
  call_failed o = true ->
  exists note,
    transcript (page (fst (continueChannel_resume "phone" o (applyBranding capData st))))
    = (transcript (page st) ++ [SystemNote note])%list /\
    includes p note = true.
Proof.
  intros Hp Hne Hfail.
  assert (Hphone : brand_callCenterPhone (cfg (applyBranding capData st)) = VStr p).
  { unfold applyBranding. cbn [cfg brand_callCenterPhone]. rewrite Hp.
    unfold or_else, truthy, str_eqb. rewrite bool_decide_eq_false_2 by exact Hne. reflexivity. }
  exists (phone_fallback_note (applyBranding capData st)).
  split; [|apply phone_fallback_note_names_phone; assumption].
  destruct o as [e|[|] status [data|e]|ok0 prov st0|result]; cbn in Hfail |- *;
    try reflexivity. rewrite Hfail. reflexivity.
Qed.

Lemma applyBranding_publishes_phone_witness :
  exists note,
    transcript (page (fst (continueChannel_resume "phone"
                             (Rejected (MkErr "TypeError" "Failed to fetch"))
                             (applyBranding
                                (VObj [("support_contact",
                                        VObj [("call_center_phone", VStr "1-833-711-2333")])])
                                sample_state))))
    = [SystemNote note] /\
    includes "1-833-711-2333" note = true.
Proof.
  apply (applyBranding_publishes_phone
           (VObj [("support_contact", VObj [("call_center_phone", VStr "1-833-711-2333")])])
           "1-833-711-2333" (Rejected (MkErr "TypeError" "Failed to fetch")) sample_state);
    [reflexivity | discriminate | reflexivity].
Defined.

(** ** The ledger when a refresh fails, and a new request *)

Lemma promiseList_renderCustomerPlan plan st :
  promiseList (page (renderCustomerPlan plan st)) = promiseList (page st).
Proof.
  unfold renderCustomerPlan. destruct (_ || _); rewrite promiseList_applyEffortBadge; reflexivity.
Qed.

Lemma ledger_cards_render_empty h effort st :
  ledger_cards (fst (renderPromiseLedger h (VArr []) effort st)) = [].
Proof.
  unfold ledger_cards, renderPromiseLedger.
  destruct (promiseList (page st)) eqn:E; cbn [isArray elements fst].
  - reflexivity.
  - rewrite E. reflexivity.
Qed.

(** A refresh of the commitments that fails (no connection, an error
    status, an unreadable or empty body) leaves a ledger that has items
    exactly as it was, panel and state; when the ledger has none, the panel
    is cleared of cards.  The conversation state is untouched either
    way. *)
Theorem refreshCommitments_failure_keeps_ledger o h st :
  call_failed o = true ->
  (has_length (promiseLedger (conv st)) = true -> refreshCommitments_resume o h st = st) /\
  (has_length (promiseLedger (conv st)) = false ->
   ledger_cards (refreshCommitments_resume o h st) = []) /\
  conv (refreshCommitments_resume o h st) = conv st.
Proof.
  intros Hfail.
  assert (Hcatch : refreshCommitments_resume o h st = refreshCommitments_catch h st).
  { destruct o as [e|[|] status [data|e]|ok0 prov st0|result]; cbn in Hfail |- *;
      try reflexivity. rewrite Hfail. reflexivity. }
  rewrite Hcatch. unfold refreshCommitments_catch.
  split; [intros ->; reflexivity|].
  split; [intros ->; apply ledger_cards_render_empty|].
  destruct (has_length _); [reflexivity|apply conv_renderPromiseLedger].
Qed.

Lemma refreshCommitments_failure_keeps_ledger_witness :
  let st := set_promiseLedger (VArr [sample_commitment]) sample_state in
  refreshCommitments_resume (Fetched false 502 (Json VNull)) (host_at 0) st = st.
Proof.
  intros st.
  apply (refreshCommitments_failure_keeps_ledger (Fetched false 502 (Json VNull)) (host_at 0) st);
    reflexivity.
Defined.

(** When the reset request has settled, however it went, the page holds a
    new conversation: the transcript is the greeting and the note
    "Started a new request." and nothing of what it held before, the
    ledger panel has no card, the last response, the ledger and the effort
    are cleared, the composer is empty, and every request then started
    that names a session names the new one. *)
Theorem resetSession_starts_afresh h st :
  let r := resetSession_resume h st in
  (exists greeting,
      transcript (page (fst r))
      = [Msg "agent" greeting VUndef; SystemNote "Started a new request."]) /\
  ledger_cards (fst r) = [] /\
  sessionId (conv (fst r)) = newSessionId h /\
  lastResponse (conv (fst r)) = VNull /\
  promiseLedger (conv (fst r)) = VArr [] /\
  customerEffort (conv (fst r)) = VNull /\
  inputValue (page (fst r)) = "" /\
  Forall (fun rq => prop (payload rq) "session_id" = VStr (newSessionId h) \/
                    prop (payload rq) "session_id" = VUndef)
         (requests_of (snd r)).
Proof.
  cbn zeta. unfold resetSession_resume. cbn [fst snd].
  split; [eexists; chrome; reflexivity|].
  split.
  { unfold ledger_cards. chrome.
    match goal with |- context [renderPromiseLedger ?a ?b ?c ?d] =>
      pose proof (ledger_cards_render_empty a c d) as Hl end.
    unfold ledger_cards in Hl. chrome. exact Hl. }
  split; [chrome; reflexivity|]. split; [chrome; reflexivity|].
  split; [chrome; reflexivity|]. split; [chrome; reflexivity|].
  split; [chrome; reflexivity|].
  unfold refreshTracker_start, refreshCommitments_start, refreshAlerts_start.
  match goal with |- context [promiseList ?pg] => destruct (promiseList pg) end;
    unfold requests_of; cbn [app omap list_omap wait];
    repeat (apply List.Forall_cons;
            [first [ right; reflexivity
                   | left; cbn [prop payload assoc];
                     change (str_eqb "session_id" "tenant") with false;
                     change (str_eqb "session_id" "session_id") with true;
                     cbn iota; f_equal; chrome; reflexivity ]|]);
    apply List.Forall_nil.
Qed.

(** ** The typing note over the life of the page *)

Ltac typing_tac :=
  unfold typing; chrome; split_ifs; chrome;
  rewrite ?existsb_app; cbn [existsb is_typing]; rewrite ?orb_false_r; reflexivity.

Lemma typing_resetVoiceButton st : typing (resetVoiceButton st) = typing st.
Proof. unfold resetVoiceButton. typing_tac. Qed.

Lemma typing_setMode m st : typing (setMode m st) = typing st.
Proof.
  unfold setMode, stopVoiceInput. destruct (str_eqb m "voice"); [typing_tac|].
  pose proof (typing_resetVoiceButton (setStatus "Text mode." (set_mode TextMode st))) as H.
  unfold typing in *. chrome. rewrite H. chrome. reflexivity.
Qed.

Lemma typing_continueChannel_resume c o st :
  typing (fst (continueChannel_resume c o st)) = typing st.
Proof.
  assert (Hc : typing (continueChannel_catch c st) = typing st).
  { unfold continueChannel_catch. typing_tac. }
  unfold continueChannel_resume.
  destruct o as [e|[|] status [data|e]|ok prov st0|result]; cbn [fst]; try exact Hc.
  destruct (is_nullish data); cbn [fst]; [exact Hc|]. typing_tac.
Qed.

Lemma typing_transcribeAndSend blob mime st :
  typing (fst (transcribeAndSend blob mime st)) = typing st.
Proof.
  unfold transcribeAndSend. destruct blob as [b|]; [destruct (Z.ltb (blob_size b) 300)|];
    cbn [fst]; typing_tac.
Qed.

Lemma typing_transcribe_after_read mime o st :
  typing (fst (transcribe_after_read mime o st)) = typing st.
Proof. unfold transcribe_after_read. destruct o; cbn [fst]; typing_tac. Qed.

Lemma typing_refreshCommitments_resume o h st :
  typing (refreshCommitments_resume o h st) = typing st.
Proof.
  assert (Hc : forall s, typing (refreshCommitments_catch h s) = typing s).
  { intros s. unfold refreshCommitments_catch. destruct (has_length _); typing_tac. }
  unfold refreshCommitments_resume.
  destruct o as [e|[|] status [data|e]|ok prov st0|result]; try apply Hc.
  destruct (is_nullish data); [apply Hc|].
  match goal with |- context [renderPromiseLedger ?a ?b ?c ?d] =>
    pose proof (transcript_renderPromiseLedger a b c d) as Hr;
    destruct (renderPromiseLedger a b c d) as [st' [err|]] end; cbn [fst] in Hr.
  - rewrite Hc. unfold typing. rewrite Hr. chrome. reflexivity.
  - unfold typing. rewrite Hr. chrome. reflexivity.
Qed.

Lemma typing_refreshAlerts_resume o st : typing (refreshAlerts_resume o st) = typing st.
Proof.
  unfold refreshAlerts_resume.
  destruct o as [e|[|] status [data|e]|ok prov st0|result]; typing_tac.
Qed.

Lemma typing_after_speak o st : typing (sendCustomerMessage_after_speak o st) = typing st.
Proof.
  unfold sendCustomerMessage_after_speak, speak_resume.
  destruct o as [e|ok status body|[] prov []|result]; typing_tac.
Qed.

Lemma typing_sendCustomerMessage text ch st : typing_kept st (sendCustomerMessage text ch st).
Proof.
  unfold typing_kept, sendCustomerMessage.
  destruct (str_eqb _ "" || sending (conv st)); [left|right]; reflexivity.
Qed.

Lemma typing_transcribe_after_fetch o st : typing_kept st (transcribe_after_fetch o st).
Proof.
  unfold transcribe_after_fetch.
  destruct o as [e|ok status [data|e]|ok0 prov st0|result];
    try (left; cbn [fst]; typing_tac).
  destruct (is_nullish data); [left; cbn [fst]; typing_tac|].
  destruct (negb ok || negb (truthy (prop data "ok"))); [left; cbn [fst]; typing_tac|].
  destruct (truthy (prop data "needs_confirmation")).
  - left. destruct (strict_eq_str _ _); cbn [fst]; typing_tac.
  - destruct (prop data "text"); try (left; cbn [fst]; typing_tac);
      match goal with |- typing_kept _ (sendCustomerMessage ?a ?b ?c) =>
        destruct (typing_sendCustomerMessage a b c) as [H|H]; [left; rewrite H; typing_tac|right; exact H]
      end.
Qed.

Lemma awaits_message_app a b : awaits_message (a ++ b) = awaits_message a || awaits_message b.
Proof. unfold awaits_message. apply existsb_app. Qed.

Lemma awaits_message_delete (l : list Pending) i p :
  l !! i = Some p ->
  match kont p with K_message => False | _ => True end ->
  awaits_message (delete i l) = awaits_message l.
Proof.
  revert i. induction l as [|a l IH]; intros [|i] H Hk; cbn in H; try discriminate.
  - injection H as ->. change (delete 0 (p :: l)) with l. unfold awaits_message.
    cbn [existsb]. destruct (kont p); try reflexivity. contradiction.
  - change (delete (S i) (a :: l)) with (a :: delete i l).
    unfold awaits_message in *. cbn [existsb]. rewrite (IH i H Hk). reflexivity.
Qed.

Lemma typing_started w r rest :
  (typing (wstate w) = true -> awaits_message rest = true) ->
  typing_kept (wstate w) r ->
  typing_invariant (started w r rest).
Proof.
  intros Hinv [Hk|Hk] Ht; unfold started in *; cbn [wstate inflight] in *;
    rewrite awaits_message_app.
  - rewrite Hk in Ht. rewrite (Hinv Ht). reflexivity.
  - rewrite Hk. apply orb_true_r.
Qed.

Lemma typing_step e h w : typing_invariant w -> typing_invariant (step e h w).
Proof.
  intros Hinv. destruct e as [text ch|c| |m|blob mime|i o]; cbn [step].
  - apply typing_started; [exact Hinv|apply typing_sendCustomerMessage].
  - apply typing_started; [exact Hinv|left; reflexivity].
  - apply typing_started; [exact Hinv|left]. unfold resetSession, stopVoiceInput, stopPlayback.
    cbn [fst]. apply typing_resetVoiceButton.
  - apply typing_started; [exact Hinv|left]. cbn [fst]. apply typing_setMode.
  - apply typing_started; [exact Hinv|left; apply typing_transcribeAndSend].
  - destruct (inflight w !! i) as [p|] eqn:Hp; [|exact Hinv].
    destruct p as [wt k]. cbn [kont].
    assert (Hrest : match k with K_message => False | _ => True end ->
                    typing (wstate w) = true -> awaits_message (delete i (inflight w)) = true).
    { intros Hk Ht. rewrite (awaits_message_delete _ _ _ Hp Hk). exact (Hinv Ht). }
    destruct k; cbn [resume].
    + intros Ht. unfold started in Ht. cbn [wstate] in Ht. unfold typing in Ht.
      rewrite no_typing_when_settled in Ht. discriminate Ht.
    + apply typing_started; [apply Hrest; exact I|left; apply typing_after_speak].
    + apply typing_started; [apply Hrest; exact I|left; apply typing_continueChannel_resume].
    + intros Ht. unfold started in Ht. cbn [wstate] in Ht.
      unfold resetSession_resume in Ht. cbn [fst] in Ht. unfold typing in Ht.
      revert Ht. chrome. cbn [existsb is_typing orb]. discriminate.
    + apply typing_started; [apply Hrest; exact I|left; apply typing_transcribe_after_read].
    + apply typing_started; [apply Hrest; exact I|apply typing_transcribe_after_fetch].
    + apply typing_started; [apply Hrest; exact I|left; reflexivity].
    + apply typing_started; [apply Hrest; exact I|left; apply typing_refreshCommitments_resume].
    + apply typing_started; [apply Hrest; exact I|left; apply typing_refreshAlerts_resume].
Qed.

(** On a page that starts without it, the "Agent is responding..." note
    shows only while the answer to a message is awaited: after any events
    with any outcomes, a transcript that shows the note has a message
    request in flight, so the note never lingers after the answer, an
    error or a reset. *)
Theorem typing_note_only_while_message_awaited es w :
  typing (wstate w) = false ->
  typing (wstate (run es w)) = true ->
  awaits_message (inflight (run es w)) = true.
Proof.
  intros H0.
  assert (Hinv : typing_invariant w) by (intros Ht; rewrite H0 in Ht; discriminate Ht).
  clear H0. revert w Hinv. induction es as [|[e h] es IH]; intros w Hinv; cbn [run].
  - exact Hinv.
  - apply IH. apply typing_step. exact Hinv.
Qed.

Lemma typing_note_only_while_message_awaited_witness :
  typing (wstate (run [(EvReset, host_at 0)] world_with_turn_in_flight)) = true /\
  awaits_message (inflight (run [(EvReset, host_at 0)] world_with_turn_in_flight)) = true.
Proof.
  split; [reflexivity|].
  apply (typing_note_only_while_message_awaited
           [(EvSend (Some "Where is my bag?") None, host_at 0); (EvReset, host_at 0)]
           (MkWorld sample_state [] [])); reflexivity.
Defined.
